(** * Survey sentiment Lambda handler: a shallow embedding of [src/lambda/handler.py]

    The handler consumes a batch of SQS records, classifies each survey text
    with Amazon Comprehend and stores the result in DynamoDB with a TTL.

    Python values are modelled as follows.
    - [str] is a list of code points ([Z]); [bytes] is a list of octets ([Z]).
    - exceptions are an inductive type; a function that can raise returns in a
      state-and-error monad over the record of observable effects ([World]).
    - the library and service calls the handler relies on ([json.loads],
      [datetime.now], [comprehend.detect_sentiment], [dynamodb.put_item],
      [str()] of numbers) are parameters of the development ([Env]). *)

From Stdlib Require Import String Ascii ZArith List Bool Lia DecimalString.
Import ListNotations.
Open Scope Z_scope.

Set Implicit Arguments.

(** ** Python strings and bytes *)

Definition pystr := list Z.
Definition pybytes := list Z.

(** An ASCII literal of the source as a [pystr]. *)
Definition lit (s : string) : pystr :=
  map (fun a => Z.of_N (N_of_ascii a)) (list_ascii_of_string s).

Definition pystr_eqb (a b : pystr) : bool :=
  if list_eq_dec Z.eq_dec a b then true else false.

(** [len(x)] *)
Definition len {A} (l : list A) : Z := Z.of_nat (length l).

(** Unicode scalar values: the code points [str.encode('utf-8')] accepts.
    A lone surrogate (U+D800..U+DFFF) makes it raise [UnicodeEncodeError]. *)
Definition is_surrogate (c : Z) : bool := (0xD800 <=? c) && (c <=? 0xDFFF).
Definition is_scalar (c : Z) : bool :=
  (0 <=? c) && (c <=? 0x10FFFF) && negb (is_surrogate c).

Module Utf8.

(** The UTF-8 encoding of one scalar value (1 to 4 octets). *)
Definition encode_cp (c : Z) : pybytes :=
  if c <? 0x80 then [c]
  else if c <? 0x800 then
    [Z.lor 0xC0 (Z.shiftr c 6); Z.lor 0x80 (Z.land c 0x3F)]
  else if c <? 0x10000 then
    [Z.lor 0xE0 (Z.shiftr c 12);
     Z.lor 0x80 (Z.land (Z.shiftr c 6) 0x3F);
     Z.lor 0x80 (Z.land c 0x3F)]
  else
    [Z.lor 0xF0 (Z.shiftr c 18);
     Z.lor 0x80 (Z.land (Z.shiftr c 12) 0x3F);
     Z.lor 0x80 (Z.land (Z.shiftr c 6) 0x3F);
     Z.lor 0x80 (Z.land c 0x3F)].

(** The octets of a string of scalar values. *)
Definition enc (text : pystr) : pybytes := flat_map encode_cp text.

(** [text.encode('utf-8')]: [None] stands for [UnicodeEncodeError]. *)
Definition encode (text : pystr) : option pybytes :=
  if forallb is_scalar text then Some (enc text) else None.

Definition is_continuation (b : Z) : bool := (0x80 <=? b) && (b <? 0xC0).

Definition cp2 (b0 b1 : Z) : Z :=
  Z.lor (Z.shiftl (Z.land b0 0x1F) 6) (Z.land b1 0x3F).
Definition cp3 (b0 b1 b2 : Z) : Z :=
  Z.lor (Z.shiftl (Z.land b0 0x0F) 12)
        (Z.lor (Z.shiftl (Z.land b1 0x3F) 6) (Z.land b2 0x3F)).
Definition cp4 (b0 b1 b2 b3 : Z) : Z :=
  Z.lor (Z.shiftl (Z.land b0 0x07) 18)
        (Z.lor (Z.shiftl (Z.land b1 0x3F) 12)
               (Z.lor (Z.shiftl (Z.land b2 0x3F) 6) (Z.land b3 0x3F))).

(** An octet that starts a multi-octet sequence. *)
Definition is_lead (b : Z) : bool := (0xC2 <=? b) && (b <? 0xF5).

(** Second octet accepted after a three-octet lead: [E0] needs [A0..BF]
    (no overlong form), [ED] needs [80..9F] (no surrogate). *)
Definition second3_ok (b0 b1 : Z) : bool :=
  is_continuation b1 &&
  negb (if b1 <? 0xA0 then b0 =? 0xE0 else b0 =? 0xED).

(** Second octet accepted after a four-octet lead: [F0] needs [90..BF],
    [F4] needs [80..8F] (nothing above U+10FFFF). *)
Definition second4_ok (b0 b1 : Z) : bool :=
  is_continuation b1 &&
  negb (if b1 <? 0x90 then b0 =? 0xF0 else b0 =? 0xF4).

(** [bs.decode('utf-8', errors='ignore')], after CPython's decoder: an invalid
    start octet is dropped alone; a sequence broken by an invalid continuation
    is dropped up to the offending octet, where decoding resumes; a sequence
    cut off by the end of the input is dropped. *)
Fixpoint decode_ignore (bs : pybytes) : pystr :=
  match bs with
  | [] => []
  | b0 :: r0 =>
    if b0 <? 0x80 then b0 :: decode_ignore r0
    else if b0 <? 0xC2 then decode_ignore r0
    else if b0 <? 0xE0 then
      match r0 with
      | [] => []
      | b1 :: r1 =>
        if is_continuation b1 then cp2 b0 b1 :: decode_ignore r1
        else decode_ignore r0
      end
    else if b0 <? 0xF0 then
      match r0 with
      | [] => []
      | b1 :: r1 =>
        if second3_ok b0 b1 then
          match r1 with
          | [] => []
          | b2 :: r2 =>
            if is_continuation b2 then cp3 b0 b1 b2 :: decode_ignore r2
            else decode_ignore r1
          end
        else decode_ignore r0
      end
    else if b0 <? 0xF5 then
      match r0 with
      | [] => []
      | b1 :: r1 =>
        if second4_ok b0 b1 then
          match r1 with
          | [] => []
          | b2 :: r2 =>
            if is_continuation b2 then
              match r2 with
              | [] => []
              | b3 :: r3 =>
                if is_continuation b3 then
                  cp4 b0 b1 b2 b3 :: decode_ignore r3
                else decode_ignore r2
              end
            else decode_ignore r1
          end
        else decode_ignore r0
      end
    else decode_ignore r0
  end.

(** Well-formed UTF-8: decoding with errors ignored drops no octet, so the
    octets are exactly the encodings of whole scalar values. *)
Definition well_formed (bs : pybytes) : bool :=
  forallb is_scalar (decode_ignore bs)
  && pystr_eqb (enc (decode_ignore bs)) bs.

End Utf8.

(** ** Exceptions *)

Inductive exn : Type :=
| JSONDecodeError
| ValueError (msg : pystr)
| UnicodeEncodeError
| AttributeError
| ClientError (code : option pystr)
| OtherException.

(** [isinstance(e, ValueError)]: [json.JSONDecodeError] and
    [UnicodeEncodeError] are subclasses of [ValueError]. *)
Definition is_ValueError (e : exn) : bool :=
  match e with
  | JSONDecodeError | ValueError _ | UnicodeEncodeError => true
  | _ => false
  end.

Definition is_JSONDecodeError (e : exn) : bool :=
  match e with JSONDecodeError => true | _ => false end.

Definition is_ClientError (e : exn) : bool :=
  match e with ClientError _ => true | _ => false end.

(** ** Constants *)

Definition COMPREHEND_MAX_BYTES : Z := 5000.
Definition DEFAULT_LANGUAGE_CODE : pystr := lit "en".

(** ** [truncate_text_for_comprehend] *)

(** [bs[:n]] for a Python int [n] (a negative [n] counts from the end). *)
Definition slice_to {A} (n : Z) (l : list A) : list A :=
  if n <? 0 then firstn (length l - Z.to_nat (- n)) l
  else firstn (Z.to_nat n) l.

(** The guard of the [while] loop on the last octet:
    [truncated[-1] & 0x80 and not (truncated[-1] & 0x40)]. *)
Definition dangling (b : Z) : bool :=
  negb (Z.land b 0x80 =? 0) && (Z.land b 0x40 =? 0).

(** The [while] loop; it removes one octet per iteration, so [length
    truncated] iterations are enough (see [strip_loop_done]). *)
Fixpoint strip_loop (fuel : nat) (truncated : pybytes) : pybytes :=
  match fuel with
  | O => truncated
  | S fuel' =>
    match truncated with
    | [] => truncated
    | _ :: _ =>
      if dangling (last truncated 0)
      then strip_loop fuel' (removelast truncated)
      else truncated
    end
  end.

Definition strip_incomplete (truncated : pybytes) : pybytes :=
  strip_loop (length truncated) truncated.

Definition truncate_text_for_comprehend (text : pystr) (max_bytes : Z)
  : exn + pystr :=
  match Utf8.encode text with
  | None => inl UnicodeEncodeError
  | Some text_bytes =>
    if len text_bytes <=? max_bytes then inr text
    else
      let truncated := slice_to max_bytes text_bytes in
      let truncated := strip_incomplete truncated in
      inr (Utf8.decode_ignore truncated)
  end.


(** ** Text helpers *)

(** [str.isspace] for one code point (the whitespace set of CPython). *)
Definition isspace (c : Z) : bool :=
  ((0x09 <=? c) && (c <=? 0x0D)) || ((0x1C <=? c) && (c <=? 0x20))
  || (c =? 0x85) || (c =? 0xA0) || (c =? 0x1680)
  || ((0x2000 <=? c) && (c <=? 0x200A))
  || (c =? 0x2028) || (c =? 0x2029) || (c =? 0x202F) || (c =? 0x205F)
  || (c =? 0x3000).

Fixpoint lstrip (s : pystr) : pystr :=
  match s with
  | [] => []
  | c :: r => if isspace c then lstrip r else s
  end.

Definition rstrip (s : pystr) : pystr := rev (lstrip (rev s)).

(** [s.strip()] *)
Definition strip (s : pystr) : pystr := rstrip (lstrip s).

(** [str(n)] for an int. *)
Definition str_of_int (n : Z) : pystr :=
  lit (DecimalString.NilZero.string_of_int (Z.to_int n)).

(** ["%0wd" % n] for [0 <= n]. *)
Definition zero_pad (w : nat) (n : Z) : pystr :=
  let d := str_of_int n in
  repeat 48 (w - length d) ++ d.

(** A JSON string literal with plain content: the text between double
    quotes (code point 34). *)
Definition quoted (s : pystr) : pystr := 34 :: s ++ [34].

(** ** Dates: [datetime], [relativedelta], [timestamp], [isoformat] *)

Record datetime : Type := mkDatetime {
  year : Z; month : Z; day : Z;
  hour : Z; minute : Z; second : Z; microsecond : Z
}.

Definition isleap (y : Z) : bool :=
  (y mod 4 =? 0) && (negb (y mod 100 =? 0) || (y mod 400 =? 0)).

(** Days of each month in a common year; the months count from 1. *)
Definition mdays : list Z := [0; 31; 28; 31; 30; 31; 30; 31; 31; 30; 31; 30; 31].

(** [calendar.monthrange(y, m)[1]] *)
Definition days_in_month (y m : Z) : Z :=
  nth (Z.to_nat m) mdays 0 + (if (m =? 2) && isleap y then 1 else 0).

Definition days_before_year (y : Z) : Z :=
  let y1 := y - 1 in y1 * 365 + y1 / 4 - y1 / 100 + y1 / 400.

(** Days of a common year before the first day of each month. *)
Definition DAYS_BEFORE_MONTH : list Z :=
  [-1; 0; 31; 59; 90; 120; 151; 181; 212; 243; 273; 304; 334].

(** Days of year [y] before the first day of month [m]. *)
Definition days_before_month (y m : Z) : Z :=
  nth (Z.to_nat m) DAYS_BEFORE_MONTH 0
  + (if (2 <? m) && isleap y then 1 else 0).

(** The proleptic Gregorian ordinal, 0001-01-01 being day 1. *)
Definition ymd2ord (y m d : Z) : Z :=
  days_before_year y + days_before_month y m + d.

Definition EPOCH_ORDINAL : Z := Eval cbv in ymd2ord 1970 1 1.

(** Microseconds from 1970-01-01T00:00:00Z to a UTC instant. *)
Definition epoch_micros (t : datetime) : Z :=
  (((ymd2ord (year t) (month t) (day t) - EPOCH_ORDINAL) * 86400
    + hour t * 3600 + minute t * 60 + second t) * 1000000)
  + microsecond t.

(** [int(t.timestamp())]: the float quotient truncated toward zero. The
    double-precision quotient has the same integer part as the exact one
    while the microsecond count stays below 2^53 (years 1685 to 2255). *)
Definition timestamp_int (t : datetime) : Z := Z.quot (epoch_micros t) 1000000.

(** A calendar date and time of day that [datetime] can hold. *)
Definition valid_datetime (t : datetime) : bool :=
  (1 <=? year t) && (year t <=? 9999)
  && (1 <=? month t) && (month t <=? 12)
  && (1 <=? day t) && (day t <=? days_in_month (year t) (month t))
  && (0 <=? hour t) && (hour t <? 24)
  && (0 <=? minute t) && (minute t <? 60)
  && (0 <=? second t) && (second t <? 60)
  && (0 <=? microsecond t) && (microsecond t <? 1000000).

(** Two instants within the same whole second. *)
Definition same_second (a b : datetime) : bool :=
  (year a =? year b) && (month a =? month b) && (day a =? day b)
  && (hour a =? hour b) && (minute a =? minute b) && (second a =? second b).

Record relativedelta : Type := mkDelta { rd_years : Z; rd_months : Z }.

(** [relativedelta(months=n)]: the constructor folds whole dozens of months
    into years, keeping the sign. *)
Definition relativedelta_months (n : Z) : relativedelta :=
  if 11 <? Z.abs n then
    let s := Z.sgn n in
    mkDelta (Z.abs n / 12 * s) (Z.abs n mod 12 * s)
  else mkDelta 0 n.

(** [dt + delta]: the month is moved first, then the day is clamped to the
    length of the target month; [replace] refuses a year outside 1..9999. *)
Definition add_relativedelta (dt : datetime) (delta : relativedelta)
  : exn + datetime :=
  let y := year dt + rd_years delta in
  let m := month dt in
  let '(y, m) :=
    if rd_months delta =? 0 then (y, m)
    else
      let m := m + rd_months delta in
      if 12 <? m then (y + 1, m - 12)
      else if m <? 1 then (y - 1, m + 12)
      else (y, m) in
  let d := Z.min (days_in_month y m) (day dt) in
  if (1 <=? y) && (y <=? 9999) then
    inr (mkDatetime y m d (hour dt) (minute dt) (second dt) (microsecond dt))
  else inl (ValueError (lit "year " ++ str_of_int y ++ lit " is out of range")).

(** [t.isoformat()] of a UTC-aware datetime. *)
Definition isoformat (t : datetime) : pystr :=
  zero_pad 4 (year t) ++ lit "-" ++ zero_pad 2 (month t) ++ lit "-"
  ++ zero_pad 2 (day t) ++ lit "T"
  ++ zero_pad 2 (hour t) ++ lit ":" ++ zero_pad 2 (minute t) ++ lit ":"
  ++ zero_pad 2 (second t)
  ++ (if microsecond t =? 0 then [] else lit "." ++ zero_pad 6 (microsecond t))
  ++ lit "+00:00".


(** ** JSON values, DynamoDB items, responses *)

Set Warnings "-register-all".

Section Values.

(** Python floats are kept abstract: the handler only tests them for zero
    and prints them. *)
Variable pyfloat : Type.

(** What [json.loads] returns. An object is a [dict], kept as an association
    list with one entry per key. *)
Inductive json : Type :=
| JNull
| JBool (b : bool)
| JInt (n : Z)
| JFloat (f : pyfloat)
| JStr (s : pystr)
| JArr (items : list json)
| JObj (fields : list (pystr * json)).

Inductive AttributeValue : Type :=
| AttrS (s : pystr)
| AttrN (n : pystr)
| AttrM (m : list (pystr * AttributeValue)).

Definition Item := list (pystr * AttributeValue).

(** The part of a [detect_sentiment] response the handler reads. *)
Record ComprehendResponse : Type := mkResponse {
  Sentiment : pystr;
  SentimentScore : list (pystr * pyfloat)
}.

(** The dict returned by [process_survey_message] (['success'] is [True]). *)
Record SurveyResult : Type := mkResult {
  res_survey_id : json;
  res_sentiment : pystr;
  res_confidence : option pyfloat
}.

(** One constructor per logging call of the source, with the values the
    message interpolates. *)
Inductive LogEvent : Type :=
| WarnTruncated (original_length truncated_length : Z) (survey_id : pystr)
| InfoComprehend (survey_id sentiment : pystr) (confidence : option pyfloat)
| ErrorComprehendClient (survey_id error_code : pystr) (e : exn)
| ErrorComprehendUnexpected (survey_id : pystr) (e : exn)
| InfoStored (survey_id customer_id sentiment : pystr)
| ErrorDynamoClient (survey_id error_code : pystr) (e : exn)
| ErrorDynamoUnexpected (survey_id : pystr) (e : exn)
| ErrorJSONDecode (survey_id : pystr) (e : exn)
| ErrorValidation (survey_id : pystr) (e : exn)
| ErrorUnexpected (survey_id : pystr) (e : exn)
| InfoBatchStart (n : Z)
| WarnEmptyBody (record_id : pystr)
| WarnRecordValidation (record_id : pystr) (e : exn)
| ErrorRecordAWS (record_id error_code : pystr) (e : exn)
| ErrorRecordUnexpected (record_id : pystr) (e : exn)
| InfoSummary (processed failed total : Z).

(** Everything the handler does to the outside: clock readings taken,
    classifier requests, storage writes and log lines, oldest first. *)
Record World : Type := mkWorld {
  clock_reads : nat;
  comprehend_calls : list (pystr * pystr);
  put_item_calls : list (pystr * Item);
  log : list LogEvent
}.

(** The environment of the handler: the interpreter's [bool] and [str] on
    floats and containers, the JSON parser, the UTC clock and the two AWS
    clients. A client may answer differently from call to call, so it sees
    the number of earlier calls. *)
Record Env : Type := mkEnv {
  float_truthy : pyfloat -> bool;
  float_str : pyfloat -> pystr;
  container_repr : json -> pystr;
  json_loads : pystr -> option json;
  utcnow : nat -> datetime;
  detect_sentiment : nat -> pystr -> pystr -> exn + ComprehendResponse;
  put_item : nat -> pystr -> Item -> option exn;
  TABLE_NAME : pystr
}.

(** An SQS record and the Lambda event. *)
Record SQSRecord : Type := mkRecord {
  messageId : option pystr;
  body : option pystr
}.

Record Event : Type := mkEvent { Records : option (list SQSRecord) }.

Record Response : Type := mkHttp { statusCode : Z; response_body : pystr }.

End Values.

Arguments JNull {pyfloat}.
Arguments JBool {pyfloat} b.
Arguments JInt {pyfloat} n.
Arguments JStr {pyfloat} s.
Arguments WarnTruncated {pyfloat}.
Arguments ErrorComprehendClient {pyfloat}.
Arguments ErrorComprehendUnexpected {pyfloat}.
Arguments InfoStored {pyfloat}.
Arguments ErrorDynamoClient {pyfloat}.
Arguments ErrorDynamoUnexpected {pyfloat}.
Arguments ErrorJSONDecode {pyfloat}.
Arguments ErrorValidation {pyfloat}.
Arguments ErrorUnexpected {pyfloat}.
Arguments InfoBatchStart {pyfloat}.
Arguments WarnEmptyBody {pyfloat}.
Arguments WarnRecordValidation {pyfloat}.
Arguments ErrorRecordAWS {pyfloat}.
Arguments ErrorRecordUnexpected {pyfloat}.
Arguments InfoSummary {pyfloat}.

(** [d.get(key)] on association lists. *)
Fixpoint dict_get {V} (key : pystr) (d : list (pystr * V)) : option V :=
  match d with
  | [] => None
  | (k, v) :: d' => if pystr_eqb k key then Some v else dict_get key d'
  end.

(** [json.dumps({'processed': p, 'failed': f, 'total': t})] *)
Definition json_dumps_counts (p f t : Z) : pystr :=
  lit "{" ++ quoted (lit "processed") ++ lit ": " ++ str_of_int p
  ++ lit ", " ++ quoted (lit "failed") ++ lit ": " ++ str_of_int f
  ++ lit ", " ++ quoted (lit "total") ++ lit ": " ++ str_of_int t
  ++ lit "}".

(** [record.get('messageId', f'record-{i}')] *)
Definition record_id_of (i : nat) (record : SQSRecord) : pystr :=
  match messageId record with
  | Some m => m
  | None => lit "record-" ++ str_of_int (Z.of_nat i)
  end.

(** ** The handler *)

Section Handler.

Variable pyfloat : Type.
Variable env : Env pyfloat.

(** A computation that may raise and that acts on the world. *)
Definition M (A : Type) : Type :=
  World pyfloat -> (exn + A) * World pyfloat.

Definition ret {A} (a : A) : M A := fun w => (inr a, w).
Definition raise {A} (e : exn) : M A := fun w => (inl e, w).
Definition bind {A B} (m : M A) (k : A -> M B) : M B :=
  fun w => match m w with
           | (inr a, w') => k a w'
           | (inl e, w') => (inl e, w')
           end.
(** [try: m / except Exception as e: handler e] *)
Definition try_except {A} (m : M A) (handler : exn -> M A) : M A :=
  fun w => match m w with
           | (inr a, w') => (inr a, w')
           | (inl e, w') => handler e w'
           end.
Definition lift {A} (r : exn + A) : M A := fun w => (r, w).

Notation "x <- m ;; k" := (bind m (fun x => k))
  (at level 61, m at next level, right associativity).
Notation "m ;;; k" := (bind m (fun _ => k))
  (at level 61, right associativity).

(** The world with more log lines and nothing else changed. *)
Definition log_append (w : World pyfloat) (evs : list (LogEvent pyfloat))
  : World pyfloat :=
  mkWorld (clock_reads w) (comprehend_calls w) (put_item_calls w)
          (log w ++ evs).

Definition logger (ev : LogEvent pyfloat) : M unit :=
  fun w => (inr tt, log_append w [ev]).

(** [datetime.now(timezone.utc)] *)
Definition datetime_now : M datetime :=
  fun w => (inr (utcnow env (clock_reads w)),
            mkWorld (S (clock_reads w)) (comprehend_calls w)
                    (put_item_calls w) (log w)).

(** [comprehend.detect_sentiment(Text=..., LanguageCode=...)] *)
Definition comprehend_detect_sentiment (text language : pystr)
  : M (ComprehendResponse pyfloat) :=
  fun w => (detect_sentiment env (length (comprehend_calls w)) text language,
            mkWorld (clock_reads w) (comprehend_calls w ++ [(text, language)])
                    (put_item_calls w) (log w)).

(** [dynamodb.put_item(TableName=..., Item=...)] *)
Definition dynamodb_put_item (table : pystr) (item : Item) : M unit :=
  fun w => (match put_item env (length (put_item_calls w)) table item with
            | Some e => inl e
            | None => inr tt
            end,
            mkWorld (clock_reads w) (comprehend_calls w)
                    (put_item_calls w ++ [(table, item)]) (log w)).

(** [bool(v)]: what [not v] tests. *)
Definition truthy (v : json pyfloat) : bool :=
  match v with
  | JNull => false
  | JBool b => b
  | JInt n => negb (n =? 0)
  | JFloat f => float_truthy env f
  | JStr s => match s with [] => false | _ => true end
  | JArr l => match l with [] => false | _ => true end
  | JObj d => match d with [] => false | _ => true end
  end.

(** [str(v)] *)
Definition py_str (v : json pyfloat) : pystr :=
  match v with
  | JNull => lit "None"
  | JBool true => lit "True"
  | JBool false => lit "False"
  | JInt n => str_of_int n
  | JFloat f => float_str env f
  | JStr s => s
  | JArr _ | JObj _ => container_repr env v
  end.

(** [e.response.get('Error', {}).get('Code', 'Unknown')] *)
Definition error_code_of (e : exn) : pystr :=
  match e with
  | ClientError (Some code) => code
  | _ => lit "Unknown"
  end.

(** *** [calculate_expires_at] *)

Definition calculate_expires_at : M Z :=
  now <- datetime_now ;;
  expires_at <- lift (add_relativedelta now (relativedelta_months 12)) ;;
  ret (timestamp_int expires_at).

(** *** [process_survey_message] *)

(** [survey_id or 'unknown'] inside an f-string. *)
Definition id_or_unknown (survey_id : json pyfloat) : pystr :=
  if truthy survey_id then py_str survey_id else lit "unknown".

(** The three [except] clauses that close the function: each logs under its
    own category and re-raises. *)
Definition outer_except {A} (survey_id : json pyfloat) (e : exn) : M A :=
  if is_JSONDecodeError e then
    logger (ErrorJSONDecode (id_or_unknown survey_id) e) ;;; raise e
  else if is_ValueError e then
    logger (ErrorValidation (id_or_unknown survey_id) e) ;;; raise e
  else
    logger (ErrorUnexpected (id_or_unknown survey_id) e) ;;; raise e.

(** [v.get(key, default)]: only a dict has [get]. *)
Definition json_get (v : json pyfloat) (key : pystr) (default : json pyfloat)
  : exn + json pyfloat :=
  match v with
  | JObj d => inr (match dict_get key d with Some x => x | None => default end)
  | _ => inl AttributeError
  end.

(** [v.strip()]: only a str has [strip]. *)
Definition json_strip (v : json pyfloat) : exn + pystr :=
  match v with
  | JStr s => inr (strip s)
  | _ => inl AttributeError
  end.

(** [if cond: raise e] *)
Definition raise_if (cond : bool) (e : exn) : M unit :=
  if cond then raise e else ret tt.

(** [str(sentiment_scores.get(key, 0))] *)
Definition score_str (scores : list (pystr * pyfloat)) (key : pystr) : pystr :=
  match dict_get key scores with
  | Some f => float_str env f
  | None => str_of_int 0
  end.

Definition build_item (survey_id customer_id : json pyfloat)
    (survey_text sentiment : pystr) (sentiment_scores : list (pystr * pyfloat))
    (created_at : pystr) (expires_at : Z) : Item :=
  [ (lit "id", AttrS (py_str survey_id));
    (lit "customerId", AttrS (py_str customer_id));
    (lit "surveyText", AttrS survey_text);
    (lit "sentiment", AttrS sentiment);
    (lit "sentimentScore",
       AttrM [ (lit "Positive", AttrN (score_str sentiment_scores (lit "Positive")));
               (lit "Negative", AttrN (score_str sentiment_scores (lit "Negative")));
               (lit "Neutral", AttrN (score_str sentiment_scores (lit "Neutral")));
               (lit "Mixed", AttrN (score_str sentiment_scores (lit "Mixed"))) ]);
    (lit "created_at", AttrS created_at);
    (lit "expires_at", AttrN (str_of_int expires_at)) ].

(** The statements of the [try] block from the truncation to the write:
    they run once the three fields have passed validation. *)
Definition classify_and_store (survey_id customer_id : json pyfloat)
    (survey_text : pystr) : M (SurveyResult pyfloat) :=
  let original_length := len survey_text in
  survey_text_truncated <-
    lift (truncate_text_for_comprehend survey_text COMPREHEND_MAX_BYTES) ;;
  truncated_bytes <-
    lift (match Utf8.encode survey_text_truncated with
          | Some bs => inr bs
          | None => inl UnicodeEncodeError
          end) ;;
  (if len truncated_bytes <? original_length then
     logger (WarnTruncated original_length (len survey_text_truncated)
                           (py_str survey_id))
   else ret tt) ;;;
  comprehend_response <-
    try_except
      (r <- comprehend_detect_sentiment survey_text_truncated
                                        DEFAULT_LANGUAGE_CODE ;;
       logger (InfoComprehend (py_str survey_id) (Sentiment r)
                              (dict_get (Sentiment r) (SentimentScore r))) ;;;
       ret r)
      (fun e =>
         if is_ClientError e then
           logger (ErrorComprehendClient (py_str survey_id) (error_code_of e) e) ;;;
           raise e
         else
           logger (ErrorComprehendUnexpected (py_str survey_id) e) ;;; raise e) ;;
  let sentiment := Sentiment comprehend_response in
  let sentiment_scores := SentimentScore comprehend_response in
  expires_at <- calculate_expires_at ;;
  created <- datetime_now ;;
  let created_at := isoformat created in
  let item := build_item survey_id customer_id survey_text sentiment
                         sentiment_scores created_at expires_at in
  try_except
    (dynamodb_put_item (TABLE_NAME env) item ;;;
     logger (InfoStored (py_str survey_id) (py_str customer_id) sentiment) ;;;
     ret (mkResult survey_id sentiment (dict_get sentiment sentiment_scores)))
    (fun e =>
       if is_ClientError e then
         logger (ErrorDynamoClient (py_str survey_id) (error_code_of e) e) ;;;
         raise e
       else
         logger (ErrorDynamoUnexpected (py_str survey_id) e) ;;; raise e).

(** The statements of the [try] block that follow the assignment of
    [survey_id]: the other two fields are read, the three are validated in
    turn, and the message is classified and stored. *)
Definition process_fields (survey_data survey_id : json pyfloat)
  : M (SurveyResult pyfloat) :=
  customer_id <- lift (json_get survey_data (lit "customerId") JNull) ;;
  survey_text_field <- lift (json_get survey_data (lit "surveyText") (JStr [])) ;;
  survey_text <- lift (json_strip survey_text_field) ;;
  raise_if (negb (truthy survey_id))
           (ValueError (lit "Survey 'id' is required")) ;;;
  raise_if (negb (truthy customer_id))
           (ValueError (lit "Survey 'customerId' is required")) ;;;
  raise_if (match survey_text with [] => true | _ => false end)
           (ValueError (lit "Survey 'surveyText' is required and cannot be empty")) ;;;
  classify_and_store survey_id customer_id survey_text.

(** The local [survey_id] is [None] until its assignment, so an exception
    raised before it is logged for survey ['unknown']. *)
Definition process_survey_message (message_body : pystr)
  : M (SurveyResult pyfloat) :=
  survey_data <-
    try_except
      (lift (match json_loads env message_body with
             | Some v => inr v
             | None => inl JSONDecodeError
             end))
      (outer_except JNull) ;;
  survey_id <-
    try_except (lift (json_get survey_data (lit "id") JNull))
               (outer_except JNull) ;;
  try_except (process_fields survey_data survey_id) (outer_except survey_id).

(** *** [main] *)

(** One iteration of the [for] loop over the records. *)
Definition handle_record (i : nat) (record : SQSRecord) (counts : Z * Z)
  : M (Z * Z) :=
  let '(processed_count, failed_count) := counts in
  let record_id := record_id_of i record in
  try_except
    (let message_body := match body record with Some b => b | None => [] end in
     match message_body with
     | [] =>
       logger (WarnEmptyBody record_id) ;;;
       ret (processed_count, failed_count + 1)
     | _ :: _ =>
       result <- process_survey_message message_body ;;
       ret (processed_count + 1, failed_count)
     end)
    (fun e =>
       if is_ValueError e then
         logger (WarnRecordValidation record_id e) ;;;
         ret (processed_count, failed_count + 1)
       else if is_ClientError e then
         logger (ErrorRecordAWS record_id (error_code_of e) e) ;;;
         ret (processed_count, failed_count + 1)
       else
         logger (ErrorRecordUnexpected record_id e) ;;;
         ret (processed_count, failed_count + 1)).

Fixpoint main_loop (i : nat) (records : list SQSRecord) (counts : Z * Z)
  : M (Z * Z) :=
  match records with
  | [] => ret counts
  | record :: rest =>
    counts' <- handle_record i record counts ;;
    main_loop (S i) rest counts'
  end.

Definition main (event : Event) : M Response :=
  let records := match Records event with Some rs => rs | None => [] end in
  logger (InfoBatchStart (len records)) ;;;
  counts <- main_loop 0 records (0, 0) ;;
  let '(processed_count, failed_count) := counts in
  logger (InfoSummary processed_count failed_count (len records)) ;;;
  ret (mkHttp 200 (json_dumps_counts processed_count failed_count
                                      (len records))).

(** *** Observations used to state the properties *)

(** No clock reading, classifier request or storage write separates the two
    worlds: the second only has more log lines. *)
Definition only_logged (w w' : World pyfloat) : Prop :=
  exists evs, w' = log_append w evs.

(** Whether an entry is handled without a failure being counted: its body
    is not empty and the pipeline returns. *)
Definition entry_succeeds (record : SQSRecord) (w : World pyfloat) : bool :=
  match body record with
  | None | Some [] => false
  | Some message_body =>
    match process_survey_message message_body w with
    | (inr _, _) => true
    | (inl _, _) => false
    end
  end.

(** The outcome of every entry of a batch, each taken in the world the
    entries before it left behind. *)
Fixpoint entry_outcomes (i : nat) (records : list SQSRecord)
    (w : World pyfloat) : list bool :=
  match records with
  | [] => []
  | record :: rest =>
    entry_succeeds record w
    :: entry_outcomes (S i) rest (snd (handle_record i record (0, 0) w))
  end.

(** Whether a log line is the truncation warning of the pipeline. *)
Definition is_truncation_warning (ev : LogEvent pyfloat) : bool :=
  match ev with
  | WarnTruncated _ _ _ => true
  | _ => false
  end.

(** The value each record written so far carries under [key]. *)
Definition written_attribute (key : pystr) (w : World pyfloat)
  : list (option AttributeValue) :=
  map (fun call => dict_get key (snd call)) (put_item_calls w).

(** The texts sent to the classifier so far. *)
Definition classified_texts (w : World pyfloat) : list pystr :=
  map fst (comprehend_calls w).

Definition event_records (event : Event) : list SQSRecord :=
  match Records event with Some rs => rs | None => [] end.

(** The outcomes of the entries of an invocation of [main]. *)
Definition batch_outcomes (event : Event) (w : World pyfloat) : list bool :=
  entry_outcomes 0 (event_records event)
                 (log_append w [InfoBatchStart (len (event_records event))]).

Definition successes (outcomes : list bool) : Z :=
  len (filter (fun b => b) outcomes).
Definition failures (outcomes : list bool) : Z :=
  len (filter negb outcomes).

(** The three fields of a parsed message as the validation sees them. *)
Definition field_id (d : list (pystr * json pyfloat)) : json pyfloat :=
  match dict_get (lit "id") d with Some v => v | None => JNull end.
Definition field_customer (d : list (pystr * json pyfloat)) : json pyfloat :=
  match dict_get (lit "customerId") d with Some v => v | None => JNull end.
Definition field_text (d : list (pystr * json pyfloat)) : json pyfloat :=
  match dict_get (lit "surveyText") d with Some v => v | None => JStr [] end.

End Handler.

Definition empty_world {pyfloat} : World pyfloat := mkWorld 0 [] [] [].

(** ** A test double of the environment

    Floats are counted in thousandths; the parser knows the sample messages
    below and rejects every other body; the classifier answers POSITIVE and
    the table accepts every write. *)

Module Demo.

Definition pyfloat := Z.

Definition member_text (kv : pystr * json pyfloat) : pystr :=
  quoted (fst kv) ++ lit ": "
  ++ match snd kv with
     | JStr s => quoted s
     | JInt n => str_of_int n
     | _ => lit "null"
     end.

Fixpoint fields_text (fields : list (pystr * json pyfloat)) : pystr :=
  match fields with
  | [] => []
  | [kv] => member_text kv
  | kv :: rest => member_text kv ++ lit ", " ++ fields_text rest
  end.

(** The JSON text of a sample value. *)
Definition json_text (v : json pyfloat) : pystr :=
  match v with
  | JObj fields => lit "{" ++ fields_text fields ++ lit "}"
  | JArr _ => lit "[1]"
  | JStr s => quoted s
  | JInt n => str_of_int n
  | _ => lit "null"
  end.

Definition message (id customer text : pystr) : json pyfloat :=
  JObj [ (lit "id", JStr id); (lit "customerId", JStr customer);
         (lit "surveyText", JStr text) ].

Definition msg_ok := message (lit "s1") (lit "c1") (lit "Great service!").
Definition msg_padded := message (lit "s2") (lit "c1") (lit "  hi  ").
Definition euro_text : pystr := repeat 0x20AC (Z.to_nat 2000).
Definition msg_euro := message (lit "s3") (lit "c1") euro_text.
Definition ascii_long_text : pystr := repeat 97 (Z.to_nat 5001).
Definition msg_ascii_long := message (lit "s4") (lit "c1") ascii_long_text.
Definition msg_no_id : json pyfloat :=
  JObj [ (lit "customerId", JStr (lit "c1")); (lit "surveyText", JStr (lit "fine")) ].
Definition msg_no_customer : json pyfloat :=
  JObj [ (lit "id", JStr (lit "s5")); (lit "surveyText", JStr (lit "fine")) ].
Definition msg_blank := message (lit "s6") (lit "c1") (lit "   ").
Definition msg_text_number : json pyfloat :=
  JObj [ (lit "customerId", JStr (lit "c1")); (lit "surveyText", JInt 5) ].
Definition msg_list : json pyfloat := JArr [JInt 1].

Definition samples : list (json pyfloat) :=
  [ msg_ok; msg_padded; msg_euro; msg_ascii_long; msg_no_id; msg_no_customer;
    msg_blank; msg_text_number; msg_list ].

Definition loads (message_body : pystr) : option (json pyfloat) :=
  find (fun v => pystr_eqb (json_text v) message_body) samples.

Definition positive : ComprehendResponse pyfloat :=
  mkResponse (lit "POSITIVE")
    [ (lit "Positive", 980); (lit "Negative", 5); (lit "Neutral", 10);
      (lit "Mixed", 5) ].

Definition env (clock : nat -> datetime) : Env pyfloat :=
  mkEnv (fun f => negb (f =? 0))
        (fun f => lit "0." ++ zero_pad 3 f)
        (fun _ => lit "[1]")
        loads
        clock
        (fun _ _ _ => inr positive)
        (fun _ _ _ => None)
        (lit "survey-results").

(** A clock that ticks one microsecond per reading from
    2024-01-31T10:00:00Z. *)
Definition steady (k : nat) : datetime :=
  mkDatetime 2024 1 31 10 0 0 (Z.of_nat k).


Definition sqs (v : json pyfloat) : SQSRecord :=
  mkRecord (Some (lit "m")) (Some (json_text v)).


(** The pipeline run on a sample message, from the empty world. *)
Definition run (clock : nat -> datetime) (v : json pyfloat)
  : (exn + SurveyResult pyfloat) * World pyfloat :=
  process_survey_message (env clock) (json_text v) empty_world.

End Demo.


(** ** Start-up configuration *)



(** ** More observations *)

Definition is_octet (b : Z) : bool := (0 <=? b) && (b <? 256).

Definition is_ascii (c : Z) : bool := (0 <=? c) && (c <? 0x80).

(** A request the classifier accepts: well-formed text of at most 5000
    octets and the fixed language code. *)
Definition within_budget (call : pystr * pystr) : bool :=
  forallb is_scalar (fst call)
  && (len (Utf8.enc (fst call)) <=? COMPREHEND_MAX_BYTES)
  && pystr_eqb (snd call) DEFAULT_LANGUAGE_CODE.

(** A text that is not empty and neither starts nor ends with whitespace. *)
Definition trimmed (s : pystr) : bool :=
  match s with
  | [] => false
  | c :: _ => negb (isspace c) && negb (isspace (last s 0))
  end.

(** Whether the twelve months after an instant contain a 29 February. *)
Definition crosses_leap_day (t : datetime) : bool :=
  if month t <=? 2
  then isleap (year t) && negb ((month t =? 2) && (day t =? 29))
  else isleap (year t + 1).

(** Whole seconds from 1970-01-01T00:00:00Z to the second of an instant. *)
Definition epoch_seconds (t : datetime) : Z :=
  (ymd2ord (year t) (month t) (day t) - EPOCH_ORDINAL) * 86400
  + hour t * 3600 + minute t * 60 + second t.

Section MoreObservations.

Variable pyfloat : Type.
Variable env : Env pyfloat.

(** A write to the configured table whose [surveyText] is a trimmed text. *)
Definition well_stored (call : pystr * Item) : bool :=
  pystr_eqb (fst call) (TABLE_NAME env)
  && match dict_get (lit "surveyText") (snd call) with
     | Some (AttrS t) => trimmed t
     | _ => false
     end.

(** The log line [main] writes for an entry whose pipeline raised [e]. *)
Definition record_failure_line (record_id : pystr) (e : exn)
  : LogEvent pyfloat :=
  if is_ValueError e then WarnRecordValidation record_id e
  else if is_ClientError e then ErrorRecordAWS record_id (error_code_of e) e
  else ErrorRecordUnexpected record_id e.

(** The line the closing [except] clauses of the pipeline log for [e]. *)
Definition pipeline_failure_line (survey_id : json pyfloat) (e : exn)
  : LogEvent pyfloat :=
  if is_JSONDecodeError e then ErrorJSONDecode (id_or_unknown env survey_id) e
  else if is_ValueError e then ErrorValidation (id_or_unknown env survey_id) e
  else ErrorUnexpected (id_or_unknown env survey_id) e.

(** The truncation warning of a validated text, when its guard holds. *)
Definition truncation_warning (survey_id : json pyfloat) (text sent : pystr)
  : list (LogEvent pyfloat) :=
  if len (Utf8.enc sent) <? len text
  then [WarnTruncated (len text) (len sent) (py_str env survey_id)]
  else [].

End MoreObservations.

Section StageLines.

Variable pyfloat : Type.
Variable env : Env pyfloat.

(** The line the [except] clauses around the classifier call log. *)
Definition classifier_failure_line (survey_id : json pyfloat) (e : exn)
  : LogEvent pyfloat :=
  if is_ClientError e
  then ErrorComprehendClient (py_str env survey_id) (error_code_of e) e
  else ErrorComprehendUnexpected (py_str env survey_id) e.

(** The line the [except] clauses around the write log. *)
Definition storage_failure_line (survey_id : json pyfloat) (e : exn)
  : LogEvent pyfloat :=
  if is_ClientError e
  then ErrorDynamoClient (py_str env survey_id) (error_code_of e) e
  else ErrorDynamoUnexpected (py_str env survey_id) e.

(** The line logged after the classifier answered. *)
Definition classified_line (survey_id : json pyfloat)
    (resp : ComprehendResponse pyfloat) : LogEvent pyfloat :=
  InfoComprehend (py_str env survey_id) (Sentiment resp)
                 (dict_get (Sentiment resp) (SentimentScore resp)).

(** The record composed for a validated message, a classifier answer and
    the two clock readings that follow [reads] earlier ones. *)
Definition record_for (survey_id customer_id : json pyfloat) (text : pystr)
    (resp : ComprehendResponse pyfloat) (reads : nat) (expires : datetime)
  : Item :=
  build_item env survey_id customer_id text (Sentiment resp)
             (SentimentScore resp) (isoformat (utcnow env (S reads)))
             (timestamp_int expires).

End StageLines.

(** A body that parses to an object whose three fields pass the checks of
    the pipeline; [raw] is the text before trimming. *)
Definition validated {pyfloat} (env : Env pyfloat) (message_body : pystr)
    (d : list (pystr * json pyfloat)) (raw : pystr) : Prop :=
  json_loads env message_body = Some (JObj d) /\
  field_text d = JStr raw /\
  truthy env (field_id d) = true /\
  truthy env (field_customer d) = true /\
  strip raw <> [].

(** What separates two worlds: the requests [cs] and the writes [ps] added,
    [k] clock readings, and log lines; every request is within the budget,
    every write is well stored, and each write comes with two readings that
    only a request makes possible. *)
Definition effects {pyfloat} (env : Env pyfloat) (w w' : World pyfloat)
    (cs : list (pystr * pystr)) (ps : list (pystr * Item)) (k : nat) : Prop :=
  comprehend_calls w' = comprehend_calls w ++ cs /\
  put_item_calls w' = put_item_calls w ++ ps /\
  clock_reads w' = (clock_reads w + k)%nat /\
  (exists ls, log w' = log w ++ ls) /\
  forallb within_budget cs = true /\
  forallb (well_stored env) ps = true /\
  (2 * length ps <= k <= 2 * length cs)%nat.

(** ** More test doubles

    The parser also knows a message whose text ends with a lone surrogate;
    the clock, the classifier and the table are chosen by the run. *)

Module Doubles.

Definition msg_surrogate : json Demo.pyfloat :=
  Demo.message (lit "s7") (lit "c1") [0x61; 0xD800].

Definition loads (message_body : pystr) : option (json Demo.pyfloat) :=
  find (fun v => pystr_eqb (Demo.json_text v) message_body)
       (msg_surrogate :: Demo.samples).

Definition env (clock : nat -> datetime)
    (detect : nat -> pystr -> pystr -> exn + ComprehendResponse Demo.pyfloat)
    (put : nat -> pystr -> Item -> option exn) : Env Demo.pyfloat :=
  mkEnv (fun f => negb (f =? 0))
        (fun f => lit "0." ++ zero_pad 3 f)
        (fun _ => lit "[1]")
        loads clock detect put (lit "survey-results").

Definition answers : nat -> pystr -> pystr -> exn + ComprehendResponse Demo.pyfloat :=
  fun _ _ _ => inr Demo.positive.

Definition throttled : nat -> pystr -> pystr -> exn + ComprehendResponse Demo.pyfloat :=
  fun _ _ _ => inl (ClientError (Some (lit "ThrottlingException"))).

Definition accepts : nat -> pystr -> Item -> option exn :=
  fun _ _ _ => None.

Definition refuses : nat -> pystr -> Item -> option exn :=
  fun _ _ _ => Some (ClientError (Some (lit "ResourceNotFoundException"))).

(** A clock stopped in the last year a [datetime] can hold. *)
Definition last_year (k : nat) : datetime :=
  mkDatetime 9999 6 15 12 0 0 (Z.of_nat k).

(** The fields of the sample message. *)
Definition ok_fields : list (pystr * json Demo.pyfloat) :=
  [ (lit "id", JStr (lit "s1")); (lit "customerId", JStr (lit "c1"));
    (lit "surveyText", JStr (lit "Great service!")) ].

Definition ok_body : pystr := Demo.json_text Demo.msg_ok.

End Doubles.

(** * Properties *)

(** ** Bit-level facts about octets *)

Module BitFacts.

Lemma land_shifted_low (hi lo k : Z) :
  0 <= k -> 0 <= lo < 2 ^ k -> Z.land (hi * 2 ^ k) lo = 0.
Proof.
  intros Hk Hlo. apply Z.bits_inj'. intros n Hn.
  rewrite Z.land_spec, Z.bits_0.
  destruct (Z.lt_ge_cases n k) as [Hlt | Hge].
  - rewrite Z.mul_pow2_bits_low by lia. reflexivity.
  - rewrite <- (Z.mod_small lo (2 ^ k)) by lia.
    rewrite Z.mod_pow2_bits_high by lia. apply andb_false_r.
Qed.

Lemma lor_shifted (hi lo k : Z) :
  0 <= k -> 0 <= lo < 2 ^ k -> Z.lor (hi * 2 ^ k) lo = hi * 2 ^ k + lo.
Proof.
  intros Hk Hlo.
  pose proof (land_shifted_low hi Hk Hlo) as H0.
  rewrite <- (Z.lxor_lor _ _ H0). symmetry. now apply Z.add_nocarry_lxor.
Qed.

Lemma land_low (a k : Z) : 0 <= k -> Z.land a (2 ^ k - 1) = a mod 2 ^ k.
Proof.
  intros Hk. rewrite <- Z.land_ones by assumption.
  f_equal. rewrite Z.ones_equiv. lia.
Qed.

Lemma lor_C0 x : 0 <= x < 64 -> Z.lor 0xC0 x = 0xC0 + x.
Proof. intros. apply (lor_shifted 3 (k := 6)); lia. Qed.
Lemma lor_80 x : 0 <= x < 64 -> Z.lor 0x80 x = 0x80 + x.
Proof. intros. apply (lor_shifted 2 (k := 6)); lia. Qed.
Lemma lor_E0 x : 0 <= x < 32 -> Z.lor 0xE0 x = 0xE0 + x.
Proof. intros. apply (lor_shifted 7 (k := 5)); lia. Qed.
Lemma lor_F0 x : 0 <= x < 16 -> Z.lor 0xF0 x = 0xF0 + x.
Proof. intros. apply (lor_shifted 15 (k := 4)); lia. Qed.

Lemma land_3F a : Z.land a 0x3F = a mod 64.
Proof. apply (land_low a (k := 6)). lia. Qed.
Lemma land_1F a : Z.land a 0x1F = a mod 32.
Proof. apply (land_low a (k := 5)). lia. Qed.
Lemma land_0F a : Z.land a 0x0F = a mod 16.
Proof. apply (land_low a (k := 4)). lia. Qed.
Lemma land_07 a : Z.land a 0x07 = a mod 8.
Proof. apply (land_low a (k := 3)). lia. Qed.

Lemma shiftr_6 a : Z.shiftr a 6 = a / 64.
Proof. rewrite Z.shiftr_div_pow2 by lia. reflexivity. Qed.
Lemma shiftr_12 a : Z.shiftr a 12 = a / 4096.
Proof. rewrite Z.shiftr_div_pow2 by lia. reflexivity. Qed.
Lemma shiftr_18 a : Z.shiftr a 18 = a / 262144.
Proof. rewrite Z.shiftr_div_pow2 by lia. reflexivity. Qed.
Lemma shiftl_6 a : Z.shiftl a 6 = a * 64.
Proof. rewrite Z.shiftl_mul_pow2 by lia. reflexivity. Qed.
Lemma shiftl_12 a : Z.shiftl a 12 = a * 4096.
Proof. rewrite Z.shiftl_mul_pow2 by lia. reflexivity. Qed.
Lemma shiftl_18 a : Z.shiftl a 18 = a * 262144.
Proof. rewrite Z.shiftl_mul_pow2 by lia. reflexivity. Qed.

Lemma lor_mul64 hi lo : 0 <= lo < 64 -> Z.lor (hi * 64) lo = hi * 64 + lo.
Proof. intros. apply (lor_shifted hi (k := 6)); lia. Qed.
Lemma lor_mul4096 hi lo :
  0 <= lo < 4096 -> Z.lor (hi * 4096) lo = hi * 4096 + lo.
Proof. intros. apply (lor_shifted hi (k := 12)); lia. Qed.
Lemma lor_mul262144 hi lo :
  0 <= lo < 262144 -> Z.lor (hi * 262144) lo = hi * 262144 + lo.
Proof. intros. apply (lor_shifted hi (k := 18)); lia. Qed.

End BitFacts.

(** ** UTF-8: shape of an encoding and decoding it back *)

Module Utf8Facts.
Import Utf8 BitFacts.

Ltac bits_to_arith :=
  rewrite ?shiftr_6, ?shiftr_12, ?shiftr_18, ?land_3F, ?land_1F, ?land_0F,
          ?land_07, ?shiftl_6, ?shiftl_12, ?shiftl_18.

Lemma is_scalar_range c :
  is_scalar c = true ->
  0 <= c <= 0x10FFFF /\ (c < 0xD800 \/ 0xDFFF < c).
Proof.
  unfold is_scalar, is_surrogate. intros H.
  apply andb_prop in H as [H Hs]. apply andb_prop in H as [H0 H1].
  apply Z.leb_le in H0, H1. split; [lia|].
  apply negb_true_iff, andb_false_iff in Hs as [Hs | Hs];
    apply Z.leb_gt in Hs; lia.
Qed.

(** The encoding in arithmetic form. *)
Lemma encode_cp_1 c : c < 0x80 -> encode_cp c = [c].
Proof.
  intros H. unfold encode_cp.
  destruct (Z.ltb_spec c 0x80); [reflexivity | lia].
Qed.

Lemma encode_cp_2 c :
  0x80 <= c < 0x800 -> encode_cp c = [0xC0 + c / 64; 0x80 + c mod 64].
Proof.
  intros H. unfold encode_cp.
  destruct (Z.ltb_spec c 0x80); [lia|].
  destruct (Z.ltb_spec c 0x800); [|lia].
  bits_to_arith.
  rewrite lor_C0, lor_80; [reflexivity | |];
    Z.div_mod_to_equations; lia.
Qed.

Lemma encode_cp_3 c :
  0x800 <= c < 0x10000 ->
  encode_cp c = [0xE0 + c / 4096; 0x80 + (c / 64) mod 64; 0x80 + c mod 64].
Proof.
  intros H. unfold encode_cp.
  destruct (Z.ltb_spec c 0x80); [lia|].
  destruct (Z.ltb_spec c 0x800); [lia|].
  destruct (Z.ltb_spec c 0x10000); [|lia].
  bits_to_arith.
  rewrite lor_E0, !lor_80; [reflexivity | | |];
    Z.div_mod_to_equations; lia.
Qed.

Lemma encode_cp_4 c :
  0x10000 <= c <= 0x10FFFF ->
  encode_cp c = [0xF0 + c / 262144; 0x80 + (c / 4096) mod 64;
                 0x80 + (c / 64) mod 64; 0x80 + c mod 64].
Proof.
  intros H. unfold encode_cp.
  destruct (Z.ltb_spec c 0x80); [lia|].
  destruct (Z.ltb_spec c 0x800); [lia|].
  destruct (Z.ltb_spec c 0x10000); [lia|].
  bits_to_arith.
  rewrite lor_F0, !lor_80; [reflexivity | | | |];
    Z.div_mod_to_equations; lia.
Qed.

Lemma is_continuation_range b :
  is_continuation b = true <-> 0x80 <= b < 0xC0.
Proof.
  unfold is_continuation. rewrite andb_true_iff, Z.leb_le, Z.ltb_lt. tauto.
Qed.

Lemma is_continuation_80 x : 0 <= x < 64 -> is_continuation (0x80 + x) = true.
Proof. intros. apply is_continuation_range. lia. Qed.

(** The encoding of a scalar value is one octet that is not a continuation
    followed by continuation octets only; the first octet is the code point
    itself below U+0080 and a lead octet otherwise. *)
Lemma encode_cp_shape c :
  is_scalar c = true ->
  exists x conts,
    encode_cp c = x :: conts /\
    is_continuation x = false /\
    forallb is_continuation conts = true /\
    ((c < 0x80 /\ conts = [] /\ x = c /\ 0 <= x) \/
     (0x80 <= c /\ is_lead x = true)).
Proof.
  intros Hs. apply is_scalar_range in Hs as [Hr _].
  destruct (Z.lt_ge_cases c 0x80) as [H1 | H1].
  { exists c, []. rewrite encode_cp_1 by lia.
    repeat split; [| left; repeat split; lia].
    unfold is_continuation. destruct (Z.leb_spec 0x80 c); [lia | reflexivity]. }
  destruct (Z.lt_ge_cases c 0x800) as [H2 | H2].
  { eexists _, _. rewrite encode_cp_2 by lia. split; [reflexivity|].
    assert (2 <= c / 64 < 32) by (Z.div_mod_to_equations; lia).
    assert (0 <= c mod 64 < 64) by (Z.div_mod_to_equations; lia).
    split; [|split].
    - unfold is_continuation.
      destruct (Z.ltb_spec (0xC0 + c / 64) 0xC0); [lia | apply andb_false_r].
    - cbn [forallb]. rewrite is_continuation_80 by lia. reflexivity.
    - right. split; [lia|]. unfold is_lead.
      apply andb_true_iff. rewrite Z.leb_le, Z.ltb_lt. lia. }
  destruct (Z.lt_ge_cases c 0x10000) as [H3 | H3].
  { eexists _, _. rewrite encode_cp_3 by lia. split; [reflexivity|].
    assert (0 <= c / 4096 < 16) by (Z.div_mod_to_equations; lia).
    assert (0 <= (c / 64) mod 64 < 64) by (Z.div_mod_to_equations; lia).
    assert (0 <= c mod 64 < 64) by (Z.div_mod_to_equations; lia).
    split; [|split].
    - unfold is_continuation.
      destruct (Z.ltb_spec (0xE0 + c / 4096) 0xC0); [lia | apply andb_false_r].
    - cbn [forallb]. rewrite !is_continuation_80 by lia. reflexivity.
    - right. split; [lia|]. unfold is_lead.
      apply andb_true_iff. rewrite Z.leb_le, Z.ltb_lt. lia. }
  { eexists _, _. rewrite encode_cp_4 by lia. split; [reflexivity|].
    assert (0 <= c / 262144 < 5) by (Z.div_mod_to_equations; lia).
    assert (0 <= (c / 4096) mod 64 < 64) by (Z.div_mod_to_equations; lia).
    assert (0 <= (c / 64) mod 64 < 64) by (Z.div_mod_to_equations; lia).
    assert (0 <= c mod 64 < 64) by (Z.div_mod_to_equations; lia).
    split; [|split].
    - unfold is_continuation.
      destruct (Z.ltb_spec (0xF0 + c / 262144) 0xC0); [lia | apply andb_false_r].
    - cbn [forallb]. rewrite !is_continuation_80 by lia. reflexivity.
    - right. split; [lia|]. unfold is_lead.
      apply andb_true_iff. rewrite Z.leb_le, Z.ltb_lt. lia. }
Qed.

(** Settles the test [a <? b] from the bounds in the context. *)
Ltac ltb_by_lia a b :=
  destruct (Z.ltb_spec a b); [try (exfalso; lia) | try (exfalso; lia)].

Lemma decode_ascii b r :
  b < 0x80 -> decode_ignore (b :: r) = b :: decode_ignore r.
Proof. intros. cbn [decode_ignore]. ltb_by_lia b 0x80. reflexivity. Qed.

Lemma decode_2 b0 b1 r :
  0xC2 <= b0 < 0xE0 -> is_continuation b1 = true ->
  decode_ignore (b0 :: b1 :: r) = cp2 b0 b1 :: decode_ignore r.
Proof.
  intros H0 H1. cbn [decode_ignore].
  ltb_by_lia b0 0x80. ltb_by_lia b0 0xC2. ltb_by_lia b0 0xE0.
  rewrite H1. reflexivity.
Qed.

Lemma decode_3 b0 b1 b2 r :
  0xE0 <= b0 < 0xF0 -> second3_ok b0 b1 = true ->
  is_continuation b2 = true ->
  decode_ignore (b0 :: b1 :: b2 :: r) = cp3 b0 b1 b2 :: decode_ignore r.
Proof.
  intros H0 H1 H2. cbn [decode_ignore].
  ltb_by_lia b0 0x80. ltb_by_lia b0 0xC2. ltb_by_lia b0 0xE0.
  ltb_by_lia b0 0xF0. rewrite H1, H2. reflexivity.
Qed.

Lemma decode_4 b0 b1 b2 b3 r :
  0xF0 <= b0 < 0xF5 -> second4_ok b0 b1 = true ->
  is_continuation b2 = true -> is_continuation b3 = true ->
  decode_ignore (b0 :: b1 :: b2 :: b3 :: r) = cp4 b0 b1 b2 b3 :: decode_ignore r.
Proof.
  intros H0 H1 H2 H3. cbn [decode_ignore].
  ltb_by_lia b0 0x80. ltb_by_lia b0 0xC2. ltb_by_lia b0 0xE0.
  ltb_by_lia b0 0xF0. ltb_by_lia b0 0xF5. rewrite H1, H2, H3. reflexivity.
Qed.

(** A lead octet at the very end of the input is an incomplete sequence and
    is dropped. *)
Lemma decode_lead_alone x : is_lead x = true -> decode_ignore [x] = [].
Proof.
  unfold is_lead. intros H. apply andb_prop in H as [H0 H1].
  apply Z.leb_le in H0. apply Z.ltb_lt in H1.
  cbn [decode_ignore].
  ltb_by_lia x 0x80. ltb_by_lia x 0xC2.
  destruct (x <? 0xE0); [reflexivity|].
  destruct (x <? 0xF0); [reflexivity|].
  ltb_by_lia x 0xF5. reflexivity.
Qed.

(** Decoding gives back a scalar value from its encoding, whatever follows. *)
Lemma decode_encode_cp c rest :
  is_scalar c = true ->
  decode_ignore (encode_cp c ++ rest) = c :: decode_ignore rest.
Proof.
  intros Hs. apply is_scalar_range in Hs as [Hr Hsur].
  destruct (Z.lt_ge_cases c 0x80) as [H1 | H1].
  { rewrite encode_cp_1 by lia. cbn [app]. apply decode_ascii. lia. }
  destruct (Z.lt_ge_cases c 0x800) as [H2 | H2].
  { rewrite encode_cp_2 by lia. cbn [app].
    assert (2 <= c / 64 < 32) by (Z.div_mod_to_equations; lia).
    assert (0 <= c mod 64 < 64) by (Z.div_mod_to_equations; lia).
    rewrite decode_2; [| lia | apply is_continuation_80; lia].
    f_equal. unfold cp2. bits_to_arith.
    rewrite lor_mul64 by (Z.div_mod_to_equations; lia).
    Z.div_mod_to_equations; lia. }
  destruct (Z.lt_ge_cases c 0x10000) as [H3 | H3].
  { rewrite encode_cp_3 by lia. cbn [app].
    assert (0 <= c / 4096 < 16) by (Z.div_mod_to_equations; lia).
    assert (0 <= (c / 64) mod 64 < 64) by (Z.div_mod_to_equations; lia).
    assert (0 <= c mod 64 < 64) by (Z.div_mod_to_equations; lia).
    rewrite decode_3; [| lia | | apply is_continuation_80; lia].
    - f_equal. unfold cp3. bits_to_arith.
      rewrite lor_mul64 by (Z.div_mod_to_equations; lia).
      rewrite lor_mul4096 by (Z.div_mod_to_equations; lia).
      Z.div_mod_to_equations; lia.
    - unfold second3_ok. rewrite is_continuation_80 by lia. cbn [andb].
      apply negb_true_iff.
      destruct (Z.ltb_spec (0x80 + (c / 64) mod 64) 0xA0);
        apply Z.eqb_neq; Z.div_mod_to_equations; lia. }
  { rewrite encode_cp_4 by lia. cbn [app].
    assert (0 <= c / 262144 < 5) by (Z.div_mod_to_equations; lia).
    assert (0 <= (c / 4096) mod 64 < 64) by (Z.div_mod_to_equations; lia).
    assert (0 <= (c / 64) mod 64 < 64) by (Z.div_mod_to_equations; lia).
    assert (0 <= c mod 64 < 64) by (Z.div_mod_to_equations; lia).
    rewrite decode_4;
      [| lia | | apply is_continuation_80; lia | apply is_continuation_80; lia].
    - f_equal. unfold cp4. bits_to_arith.
      rewrite lor_mul64 by (Z.div_mod_to_equations; lia).
      rewrite lor_mul4096 by (Z.div_mod_to_equations; lia).
      rewrite lor_mul262144 by (Z.div_mod_to_equations; lia).
      Z.div_mod_to_equations; lia.
    - unfold second4_ok. rewrite is_continuation_80 by lia. cbn [andb].
      apply negb_true_iff.
      destruct (Z.ltb_spec (0x80 + (c / 4096) mod 64) 0x90);
        apply Z.eqb_neq; Z.div_mod_to_equations; lia. }
Qed.

Lemma forallb_scalar_app t1 t2 :
  forallb is_scalar (t1 ++ t2) = true ->
  forallb is_scalar t1 = true /\ forallb is_scalar t2 = true.
Proof. rewrite forallb_app. apply andb_prop. Qed.

Lemma enc_app t1 t2 : enc (t1 ++ t2) = enc t1 ++ enc t2.
Proof. unfold enc. apply flat_map_app. Qed.

(** Round trip, whatever octets follow the encoding. *)
Lemma decode_enc_app t rest :
  forallb is_scalar t = true ->
  decode_ignore (enc t ++ rest) = t ++ decode_ignore rest.
Proof.
  induction t as [| c t IH]; intros Hs; [reflexivity|].
  cbn [forallb] in Hs. apply andb_prop in Hs as [Hc Ht].
  change (enc (c :: t)) with (encode_cp c ++ enc t).
  rewrite <- app_assoc, decode_encode_cp by assumption.
  rewrite IH by assumption. reflexivity.
Qed.

Lemma decode_enc t : forallb is_scalar t = true -> decode_ignore (enc t) = t.
Proof.
  intros Hs. rewrite <- (app_nil_r (enc t)), decode_enc_app by assumption.
  apply app_nil_r.
Qed.

Lemma decode_enc_lead t x :
  forallb is_scalar t = true -> is_lead x = true ->
  decode_ignore (enc t ++ [x]) = t.
Proof.
  intros Hs Hx. rewrite decode_enc_app, decode_lead_alone by assumption.
  apply app_nil_r.
Qed.

End Utf8Facts.

(** ** The loop that drops dangling octets *)

Module StripFacts.
Import Utf8 Utf8Facts.

(** On octets the loop guard is the continuation test. *)
Lemma dangling_octet b : 0 <= b < 256 -> dangling b = is_continuation b.
Proof.
  intros Hb.
  assert (Hall : forallb (fun n => Bool.eqb (dangling (Z.of_nat n))
                                            (is_continuation (Z.of_nat n)))
                         (seq 0 256) = true) by (vm_compute; reflexivity).
  rewrite forallb_forall in Hall.
  specialize (Hall (Z.to_nat b)).
  rewrite Z2Nat.id in Hall by lia.
  apply eqb_prop, Hall, in_seq. lia.
Qed.

Lemma dangling_continuation b : is_continuation b = true -> dangling b = true.
Proof.
  intros H. rewrite dangling_octet; [assumption|].
  apply is_continuation_range in H. lia.
Qed.

Lemma dangling_lead x : is_lead x = true -> dangling x = false.
Proof.
  unfold is_lead. intros H. apply andb_prop in H as [H0 H1].
  apply Z.leb_le in H0. apply Z.ltb_lt in H1.
  rewrite dangling_octet by lia. unfold is_continuation.
  destruct (Z.ltb_spec x 0xC0); [lia | apply andb_false_r].
Qed.

Lemma dangling_ascii x : 0 <= x < 0x80 -> dangling x = false.
Proof.
  intros H. rewrite dangling_octet by lia. unfold is_continuation.
  destruct (Z.leb_spec 0x80 x); [lia | reflexivity].
Qed.

(** The loop removes a run of continuation octets at the end and stops at
    the octet before it. *)
Lemma strip_loop_conts conts : forall L x fuel,
  forallb is_continuation conts = true -> dangling x = false ->
  (length conts <= fuel)%nat ->
  strip_loop fuel (L ++ x :: conts) = L ++ [x].
Proof.
  induction conts as [| y conts IH] using rev_ind; intros L x fuel Hc Hx Hf.
  - destruct fuel as [| fuel]; [reflexivity|].
    cbn [strip_loop]. destruct (L ++ [x]) eqn:E.
    + destruct L; discriminate.
    + rewrite <- E, last_last, Hx. reflexivity.
  - rewrite forallb_app in Hc. apply andb_prop in Hc as [Hc Hy].
    cbn [forallb] in Hy. rewrite andb_true_r in Hy.
    rewrite length_app in Hf. cbn [length] in Hf.
    destruct fuel as [| fuel]; [lia|].
    cbn [strip_loop].
    replace (L ++ x :: conts ++ [y]) with ((L ++ x :: conts) ++ [y])
      by (rewrite <- app_assoc; reflexivity).
    destruct ((L ++ x :: conts) ++ [y]) eqn:E.
    + destruct (L ++ x :: conts); discriminate.
    + rewrite <- E, last_last, (dangling_continuation _ Hy), removelast_last.
      apply IH; [assumption | assumption | lia].
Qed.

Lemma strip_incomplete_conts L x conts :
  forallb is_continuation conts = true -> dangling x = false ->
  strip_incomplete (L ++ x :: conts) = L ++ [x].
Proof.
  intros Hc Hx. unfold strip_incomplete.
  apply strip_loop_conts; [assumption | assumption |].
  rewrite length_app. cbn [length]. lia.
Qed.

(** The fuel is enough: the loop guard is false on the result. *)
Lemma strip_loop_done fuel : forall bs,
  (length bs <= fuel)%nat ->
  strip_loop fuel bs = [] \/
  dangling (last (strip_loop fuel bs) 0) = false.
Proof.
  induction fuel as [| fuel IH]; intros bs Hf.
  - destruct bs; [left; reflexivity | cbn [length] in Hf; lia].
  - cbn [strip_loop]. destruct bs as [| b bs]; [left; reflexivity|].
    destruct (dangling (last (b :: bs) 0)) eqn:E.
    + apply IH.
      assert (Hl : length (b :: bs) = S (length (removelast (b :: bs)))).
      { rewrite (app_removelast_last 0 (l := b :: bs)) at 1 by discriminate.
        rewrite length_app. cbn [length]. lia. }
      lia.
    + right. assumption.
Qed.

Lemma strip_incomplete_done bs :
  strip_incomplete bs = [] \/ dangling (last (strip_incomplete bs) 0) = false.
Proof. apply strip_loop_done. lia. Qed.

(** Only octets at the end are removed. *)
Lemma strip_loop_prefix fuel : forall bs,
  exists dropped, bs = strip_loop fuel bs ++ dropped.
Proof.
  induction fuel as [| fuel IH]; intros bs.
  - exists []. symmetry. apply app_nil_r.
  - cbn [strip_loop]. destruct bs as [| b bs].
    + exists []. reflexivity.
    + destruct (dangling (last (b :: bs) 0)).
      * destruct (IH (removelast (b :: bs))) as [d Hd].
        exists (d ++ [last (b :: bs) 0]).
        rewrite app_assoc, <- Hd.
        apply app_removelast_last. discriminate.
      * exists []. symmetry. apply app_nil_r.
Qed.

End StripFacts.

(** ** [truncate_text_for_comprehend] *)

Module TruncateFacts.
Import Utf8 Utf8Facts StripFacts.

Lemma forallb_firstn {A} (f : A -> bool) n : forall l,
  forallb f l = true -> forallb f (firstn n l) = true.
Proof.
  induction n as [| n IH]; intros [| a l] H; try reflexivity.
  cbn [forallb firstn] in *. apply andb_prop in H as [Ha Hl].
  rewrite Ha, (IH _ Hl). reflexivity.
Qed.

(** Cutting an encoding after [n] octets leaves whole code points followed
    by nothing, or by the lead octet and some continuation octets of the
    code point the cut falls in. *)
Lemma firstn_enc_split t : forall n,
  forallb is_scalar t = true ->
  exists t1 t2 p,
    t = t1 ++ t2 /\ firstn n (enc t) = enc t1 ++ p /\
    (p = [] \/
     exists x conts, p = x :: conts /\ is_lead x = true /\
                     forallb is_continuation conts = true).
Proof.
  induction t as [| c t IH]; intros n Hs.
  - exists [], [], []. rewrite firstn_nil. repeat split. now left.
  - cbn [forallb] in Hs. apply andb_prop in Hs as [Hc Ht].
    change (enc (c :: t)) with (encode_cp c ++ enc t).
    destruct (Nat.le_gt_cases (length (encode_cp c)) n) as [Hn | Hn].
    + destruct (IH (n - length (encode_cp c))%nat Ht)
        as (t1 & t2 & p & Et & Ef & Hp).
      exists (c :: t1), t2, p. split; [rewrite Et; reflexivity|].
      split; [|assumption].
      rewrite firstn_app, (firstn_all2 (encode_cp c) Hn).
      rewrite Ef. change (enc (c :: t1)) with (encode_cp c ++ enc t1).
      apply app_assoc.
    + exists [], (c :: t), (firstn n (encode_cp c)).
      split; [reflexivity|]. split.
      { rewrite firstn_app.
        replace (n - length (encode_cp c))%nat with O by lia.
        rewrite firstn_O. apply app_nil_r. }
      destruct (encode_cp_shape c Hc) as (x & conts & Ee & Hx & Hconts & Hk).
      rewrite Ee in *. destruct n as [| n]; [left; reflexivity|].
      right. exists x, (firstn n conts). split; [reflexivity|].
      split; [| apply forallb_firstn; assumption].
      destruct Hk as [(_ & Enil & _) | (_ & Hlead)]; [| assumption].
      subst conts. cbn [length] in Hn. lia.
Qed.

(** What is decoded after the cut and the loop is a prefix of the text, and
    its own encoding is a prefix of the cut octets. *)
Lemma cut_strip_decode t n :
  forallb is_scalar t = true ->
  exists t1 t2 dropped,
    t = t1 ++ t2 /\
    decode_ignore (strip_incomplete (firstn n (enc t))) = t1 /\
    firstn n (enc t) = enc t1 ++ dropped.
Proof.
  intros Hs.
  destruct (firstn_enc_split t n Hs) as (t1 & t2 & p & Et & Ef & Hp).
  assert (Hs1 : forallb is_scalar t1 = true).
  { rewrite Et in Hs. now apply forallb_scalar_app in Hs. }
  destruct Hp as [Ep | (x & conts & Ep & Hx & Hconts)].
  - subst p. rewrite app_nil_r in Ef.
    destruct t1 as [| c0 t1'] using rev_ind.
    + exists [], t, []. rewrite Ef. repeat split.
    + clear IHt1'. apply forallb_scalar_app in Hs1 as [Hs1 Hc].
      cbn [forallb] in Hc. rewrite andb_true_r in Hc.
      destruct (encode_cp_shape c0 Hc) as (x & conts & Ee & Hx & Hconts & Hk).
      assert (Eenc : enc (t1' ++ [c0]) = enc t1' ++ x :: conts).
      { rewrite enc_app. unfold enc at 2. cbn [flat_map].
        rewrite app_nil_r, Ee. reflexivity. }
      destruct Hk as [(Hlt & Enil & Ex & Hx0) | (_ & Hlead)].
      * subst conts. exists (t1' ++ [c0]), t2, [].
        split; [assumption|]. split; [| rewrite app_nil_r; assumption].
        rewrite Ef, Eenc, strip_incomplete_conts;
          [| reflexivity | apply dangling_ascii; lia].
        rewrite <- Eenc. apply decode_enc.
        rewrite forallb_app, Hs1. cbn [forallb]. now rewrite Hc.
      * exists t1', ([c0] ++ t2), (x :: conts).
        split; [rewrite Et, <- app_assoc; reflexivity|].
        split; [| rewrite Ef; assumption].
        rewrite Ef, Eenc, strip_incomplete_conts;
          [| assumption | apply dangling_lead; assumption].
        apply decode_enc_lead; assumption.
  - subst p. exists t1, t2, (x :: conts).
    split; [assumption|]. split; [| assumption].
    rewrite Ef, strip_incomplete_conts;
      [| assumption | apply dangling_lead; assumption].
    apply decode_enc_lead; assumption.
Qed.

Lemma encode_Some text bs :
  encode text = Some bs -> forallb is_scalar text = true /\ bs = enc text.
Proof.
  unfold encode. destruct (forallb is_scalar text); [|discriminate].
  intros H. injection H as <-. split; reflexivity.
Qed.

Lemma encode_scalar text :
  forallb is_scalar text = true -> encode text = Some (enc text).
Proof. unfold encode. intros ->. reflexivity. Qed.

(** [bs[:n]] keeps the first octets, a negative [n] as well. *)
Lemma slice_to_firstn {A} n (l : list A) :
  exists k, slice_to n l = firstn k l /\ (0 <= n -> k = Z.to_nat n).
Proof.
  unfold slice_to. destruct (Z.ltb_spec n 0).
  - eexists. split; [reflexivity | lia].
  - eexists. split; [reflexivity | reflexivity].
Qed.

(** The function returns a prefix of its argument whose encoding is a prefix
    of the argument's encoding. *)
Lemma truncate_prefix text max_bytes r :
  truncate_text_for_comprehend text max_bytes = inr r ->
  forallb is_scalar text = true /\
  exists rest, text = r ++ rest.
Proof.
  unfold truncate_text_for_comprehend.
  destruct (encode text) as [bs|] eqn:E; [|discriminate].
  apply encode_Some in E as [Hs ->].
  destruct (len (enc text) <=? max_bytes).
  - intros H. injection H as <-. split; [assumption|].
    exists []. symmetry. apply app_nil_r.
  - intros H. injection H as <-. split; [assumption|].
    destruct (slice_to_firstn max_bytes (enc text)) as (k & -> & _).
    destruct (cut_strip_decode text k Hs) as (t1 & t2 & d & Et & Ed & _).
    exists t2. rewrite Ed. assumption.
Qed.

(** When the text is cut, the result fits the budget. *)
Lemma truncate_fits text max_bytes :
  forallb is_scalar text = true ->
  0 <= max_bytes < len (enc text) ->
  exists r rest,
    truncate_text_for_comprehend text max_bytes = inr r /\
    text = r ++ rest /\
    forallb is_scalar r = true /\
    len (enc r) <= max_bytes.
Proof.
  intros Hs Hm. unfold truncate_text_for_comprehend.
  rewrite (encode_scalar _ Hs).
  destruct (Z.leb_spec (len (enc text)) max_bytes); [lia|].
  destruct (slice_to_firstn max_bytes (enc text)) as (k & -> & Hk).
  specialize (Hk (proj1 Hm)).
  destruct (cut_strip_decode text k Hs) as (t1 & t2 & d & Et & Ed & Ef).
  exists t1, t2. rewrite Ed. split; [reflexivity|]. split; [assumption|].
  split.
  - rewrite Et in Hs. now apply forallb_scalar_app in Hs.
  - assert (Hl : (length (enc t1) <= k)%nat).
    { pose proof (firstn_le_length k (enc text)) as Hle.
      rewrite Ef, length_app in Hle. lia. }
    unfold len. lia.
Qed.

(** A text within the budget is returned as it is. *)
Lemma truncate_short text max_bytes :
  forallb is_scalar text = true ->
  len (enc text) <= max_bytes ->
  truncate_text_for_comprehend text max_bytes = inr text.
Proof.
  intros Hs Hm. unfold truncate_text_for_comprehend.
  rewrite (encode_scalar _ Hs).
  destruct (Z.leb_spec (len (enc text)) max_bytes); [reflexivity | lia].
Qed.

(** In every case the result is a string of scalar values that fits a
    budget that is not negative. *)
Lemma truncate_result text max_bytes r :
  0 <= max_bytes ->
  truncate_text_for_comprehend text max_bytes = inr r ->
  forallb is_scalar r = true /\ len (enc r) <= max_bytes.
Proof.
  intros Hm H.
  destruct (truncate_prefix _ _ H) as (Hs & _).
  destruct (Z.le_gt_cases (len (enc text)) max_bytes) as [Hle | Hgt].
  - rewrite truncate_short in H by assumption. injection H as <-.
    split; assumption.
  - destruct (truncate_fits text (max_bytes := max_bytes) Hs)
      as (r' & rest & E & _ & Hsr & Hl); [lia|].
    rewrite E in H. injection H as <-. split; assumption.
Qed.

(** Every scalar value takes at least one octet. *)
Lemma enc_length t : (length t <= length (enc t))%nat.
Proof.
  induction t as [| c t IH]; [apply Nat.le_refl|].
  change (enc (c :: t)) with (encode_cp c ++ enc t).
  rewrite length_app. cbn [length].
  assert (1 <= length (encode_cp c))%nat.
  { unfold encode_cp.
    destruct (c <? 0x80); [| destruct (c <? 0x800);
                             [| destruct (c <? 0x10000)]];
      cbn [length]; lia. }
  lia.
Qed.

(** The guard of the warning, fewer octets after than characters before,
    only holds when the text was cut. *)
Lemma warning_guard_implies_cut text max_bytes r :
  truncate_text_for_comprehend text max_bytes = inr r ->
  len (enc r) < len text -> r <> text.
Proof.
  intros _ Hlt ->. pose proof (enc_length text). unfold len in Hlt. lia.
Qed.

End TruncateFacts.

(** ** Calendar facts *)

Module DateFacts.

(** [relativedelta(months=12)] is one year and no month. *)
Lemma relativedelta_12 : relativedelta_months 12 = mkDelta 1 0.
Proof. reflexivity. Qed.

(** Twelve months later: the same month and time of day of the next year,
    the day clamped to the length of that month. *)
Lemma add_12_months now later :
  add_relativedelta now (relativedelta_months 12) = inr later ->
  later = mkDatetime (year now + 1) (month now)
            (Z.min (days_in_month (year now + 1) (month now)) (day now))
            (hour now) (minute now) (second now) (microsecond now).
Proof.
  rewrite relativedelta_12. unfold add_relativedelta. cbn [rd_years rd_months].
  change (0 =? 0) with true. cbv beta iota.
  destruct ((1 <=? year now + 1) && (year now + 1 <=? 9999)); [|discriminate].
  intros H. injection H as <-. reflexivity.
Qed.

Lemma add_12_months_defined now :
  valid_datetime now = true -> year now < 9999 ->
  exists later, add_relativedelta now (relativedelta_months 12) = inr later.
Proof.
  intros Hv Hy. rewrite relativedelta_12.
  unfold add_relativedelta. cbn [rd_years rd_months].
  change (0 =? 0) with true. cbv beta iota.
  unfold valid_datetime in Hv.
  repeat (apply andb_prop in Hv as [Hv ?]).
  apply Z.leb_le in Hv.
  destruct (Z.leb_spec 1 (year now + 1)); [|lia].
  destruct (Z.leb_spec (year now + 1) 9999); [|lia].
  eexists. reflexivity.
Qed.

Lemma month_cases m :
  1 <= m <= 12 ->
  m = 1 \/ m = 2 \/ m = 3 \/ m = 4 \/ m = 5 \/ m = 6 \/
  m = 7 \/ m = 8 \/ m = 9 \/ m = 10 \/ m = 11 \/ m = 12.
Proof. lia. Qed.

(** Evaluates the table lookups and month tests of a literal month. *)
Ltac eval_month :=
  unfold days_in_month, days_before_month in *;
  repeat match goal with
  | |- context [nth ?n ?l ?d] =>
    let v := eval vm_compute in (nth n l d) in change (nth n l d) with v
  | |- context [Z.eqb ?a ?b] =>
    let v := eval vm_compute in (Z.eqb a b) in change (Z.eqb a b) with v
  | |- context [Z.ltb ?a ?b] =>
    let v := eval vm_compute in (Z.ltb a b) in change (Z.ltb a b) with v
  end;
  cbn [andb].

Lemma days_in_month_pos y m : 1 <= m <= 12 -> 28 <= days_in_month y m <= 31.
Proof.
  intros Hm. apply month_cases in Hm.
  repeat (destruct Hm as [-> | Hm]); try subst m; eval_month;
    try destruct (isleap y); lia.
Qed.

Lemma days_before_month_nonneg y m : 1 <= m <= 12 -> 0 <= days_before_month y m.
Proof.
  intros Hm. apply month_cases in Hm.
  repeat (destruct Hm as [-> | Hm]); try subst m; eval_month;
    try destruct (isleap y); lia.
Qed.

Lemma days_before_year_mono y : 1970 <= y -> 719162 <= days_before_year y.
Proof. intros H. unfold days_before_year. Z.div_mod_to_equations. lia. Qed.

(** From 1970 on the whole seconds since the epoch are not negative. *)
Lemma epoch_seconds_nonneg y m d h mi s :
  1970 <= y -> 1 <= m <= 12 -> 1 <= d -> 0 <= h -> 0 <= mi -> 0 <= s ->
  0 <= (ymd2ord y m d - EPOCH_ORDINAL) * 86400 + h * 3600 + mi * 60 + s.
Proof.
  intros Hy Hm Hd Hh Hmi Hs. unfold ymd2ord.
  pose proof (days_before_year_mono Hy).
  pose proof (days_before_month_nonneg y Hm).
  change EPOCH_ORDINAL with 719163. nia.
Qed.

Lemma quot_seconds S us :
  0 <= S -> 0 <= us < 1000000 -> Z.quot (S * 1000000 + us) 1000000 = S.
Proof.
  intros HS Hus. rewrite Z.quot_div_nonneg by lia.
  Z.div_mod_to_equations. lia.
Qed.

(** [int(t.timestamp())] only depends on the whole second, from 1970 on. *)
Lemma timestamp_int_same_second a b :
  valid_datetime a = true -> valid_datetime b = true ->
  1970 <= year a -> same_second a b = true ->
  timestamp_int a = timestamp_int b.
Proof.
  intros Ha Hb Hy Hs. unfold same_second in Hs.
  repeat (apply andb_prop in Hs as [Hs ?]).
  repeat match goal with H : (_ =? _) = true |- _ => apply Z.eqb_eq in H end.
  unfold valid_datetime in Ha, Hb.
  repeat (apply andb_prop in Ha as [Ha ?]).
  repeat (apply andb_prop in Hb as [Hb ?]).
  repeat match goal with
         | H : (_ <=? _) = true |- _ => apply Z.leb_le in H
         | H : (_ <? _) = true |- _ => apply Z.ltb_lt in H
         end.
  unfold timestamp_int, epoch_micros.
  destruct a as [ya ma da ha mia sa ua], b as [yb mb db hb mib sb ub].
  cbn [year month day hour minute second microsecond] in *. subst.
  rewrite !quot_seconds; try lia; try (apply epoch_seconds_nonneg; lia).
Qed.


Lemma isleap_spec y :
  isleap y = true <-> (y mod 4 = 0 /\ (y mod 100 <> 0 \/ y mod 400 = 0)).
Proof.
  unfold isleap. rewrite andb_true_iff, orb_true_iff, negb_true_iff.
  rewrite !Z.eqb_eq, Z.eqb_neq. tauto.
Qed.

(** A year has 365 days, 366 when it is a leap year. *)
Lemma year_length y :
  days_before_year (y + 1) - days_before_year y
  = if isleap y then 366 else 365.
Proof.
  destruct (isleap y) eqn:E.
  - apply isleap_spec in E. unfold days_before_year.
    replace (y + 1 - 1) with y by lia.
    Z.div_mod_to_equations. lia.
  - assert (H : ~ (y mod 4 = 0 /\ (y mod 100 <> 0 \/ y mod 400 = 0))).
    { rewrite <- isleap_spec, E. discriminate. }
    unfold days_before_year. replace (y + 1 - 1) with y by lia.
    Z.div_mod_to_equations. lia.
Qed.

Lemma isleap_next y : isleap y = true -> isleap (y + 1) = false.
Proof.
  intros E. apply isleap_spec in E.
  destruct (isleap (y + 1)) eqn:E'; [|reflexivity].
  apply isleap_spec in E'. exfalso. Z.div_mod_to_equations. lia.
Qed.


(** The example of the specification: 2024-01-31T10:00:00Z. *)
Lemma add_12_months_jan_31 :
  add_relativedelta (mkDatetime 2024 1 31 10 0 0 0) (relativedelta_months 12)
  = inr (mkDatetime 2025 1 31 10 0 0 0).
Proof. reflexivity. Qed.

(** The target month lacks the day: 29 February becomes 28 February. *)
Lemma add_12_months_feb_29 :
  add_relativedelta (mkDatetime 2024 2 29 10 0 0 0) (relativedelta_months 12)
  = inr (mkDatetime 2025 2 28 10 0 0 0).
Proof. reflexivity. Qed.

End DateFacts.

(** ** The per-message pipeline *)

Section PipelineFacts.

Variable pyfloat : Type.
Variable env : Env pyfloat.

Ltac run_monad :=
  cbv [bind try_except lift ret raise raise_if logger datetime_now
       comprehend_detect_sentiment dynamodb_put_item calculate_expires_at].

Ltac world_simpl :=
  cbn [clock_reads comprehend_calls put_item_calls log log_append fst snd].

Lemma log_append_append (w : World pyfloat) evs1 evs2 :
  log_append (log_append w evs1) evs2 = log_append w (evs1 ++ evs2).
Proof. unfold log_append. cbn. rewrite <- app_assoc. reflexivity. Qed.

Lemma only_logged_refl (w : World pyfloat) : only_logged w w.
Proof.
  exists []. unfold log_append. rewrite app_nil_r. destruct w; reflexivity.
Qed.

Lemma only_logged_append (w : World pyfloat) evs :
  only_logged w (log_append w evs).
Proof. exists evs. reflexivity. Qed.

Lemma only_logged_trans (w1 w2 w3 : World pyfloat) :
  only_logged w1 w2 -> only_logged w2 w3 -> only_logged w1 w3.
Proof.
  intros [e1 ->] [e2 ->]. exists (e1 ++ e2). apply log_append_append.
Qed.

Lemma only_logged_calls (w w' : World pyfloat) :
  only_logged w w' ->
  clock_reads w' = clock_reads w /\
  comprehend_calls w' = comprehend_calls w /\
  put_item_calls w' = put_item_calls w.
Proof. intros [evs ->]. repeat split. Qed.

(** The closing [except] clauses log one line and re-raise. *)
Lemma outer_except_spec A sid e (w : World pyfloat) :
  exists ev, @outer_except _ env A sid e w = (inl e, log_append w [ev]).
Proof.
  unfold outer_except.
  destruct (is_JSONDecodeError e); [| destruct (is_ValueError e)];
    run_monad; eexists; reflexivity.
Qed.

(** What [classify_and_store] does, stage by stage. *)
Lemma classify_and_store_spec sid cid t (w : World pyfloat) :
  exists res w',
    classify_and_store env sid cid t w = (res, w') /\
    match truncate_text_for_comprehend t COMPREHEND_MAX_BYTES with
    | inl e => res = inl e /\ w' = w
    | inr trunc =>
      comprehend_calls w' =
        comprehend_calls w ++ [(trunc, DEFAULT_LANGUAGE_CODE)] /\
      match detect_sentiment env (length (comprehend_calls w)) trunc
                             DEFAULT_LANGUAGE_CODE with
      | inl e =>
        res = inl e /\ put_item_calls w' = put_item_calls w /\
        clock_reads w' = clock_reads w
      | inr resp =>
        match add_relativedelta (utcnow env (clock_reads w))
                                (relativedelta_months 12) with
        | inl e => res = inl e /\ put_item_calls w' = put_item_calls w
        | inr expires =>
          let item :=
            build_item env sid cid t (Sentiment resp) (SentimentScore resp)
                       (isoformat (utcnow env (S (clock_reads w))))
                       (timestamp_int expires) in
          put_item_calls w' = put_item_calls w ++ [(TABLE_NAME env, item)] /\
          clock_reads w' = S (S (clock_reads w)) /\
          match put_item env (length (put_item_calls w)) (TABLE_NAME env) item with
          | Some e => res = inl e
          | None =>
            res = inr (mkResult sid (Sentiment resp)
                                (dict_get (Sentiment resp) (SentimentScore resp)))
          end
        end
      end
    end.
Proof.
  unfold classify_and_store.
  destruct (truncate_text_for_comprehend t COMPREHEND_MAX_BYTES)
    as [e | trunc] eqn:Et.
  { run_monad. eexists _, _. split; [reflexivity|]. split; reflexivity. }
  assert (Hs : forallb is_scalar trunc = true).
  { destruct (@TruncateFacts.truncate_result t COMPREHEND_MAX_BYTES trunc)
      as [Hs _]; [unfold COMPREHEND_MAX_BYTES; lia | assumption | assumption]. }
  run_monad. rewrite (TruncateFacts.encode_scalar _ Hs).
  destruct (len (Utf8.enc trunc) <? len t); world_simpl;
  (destruct (detect_sentiment env (length (comprehend_calls w)) trunc
                              DEFAULT_LANGUAGE_CODE) as [e | resp];
   [ destruct (is_ClientError e); run_monad; world_simpl;
     eexists _, _; (split; [reflexivity|]); world_simpl; repeat split
   | world_simpl;
     destruct (add_relativedelta (utcnow env (clock_reads w))
                                 (relativedelta_months 12)) as [e | expires];
     [ eexists _, _; (split; [reflexivity|]); world_simpl; repeat split
     | world_simpl;
       match goal with
       | |- context [put_item env ?n ?tbl ?it] =>
         destruct (put_item env n tbl it) as [e |]
       end;
       [ destruct (is_ClientError e); run_monad; world_simpl;
         eexists _, _; (split; [reflexivity|]); world_simpl; repeat split
       | eexists _, _; (split; [reflexivity|]); world_simpl; repeat split ] ] ]).
Qed.

(** The log of [classify_and_store]: the truncation warning under its
    guard, then lines of other kinds. *)
Lemma classify_and_store_log sid cid t (w : World pyfloat) trunc :
  truncate_text_for_comprehend t COMPREHEND_MAX_BYTES = inr trunc ->
  exists rest,
    log (snd (classify_and_store env sid cid t w))
    = log w
      ++ (if len (Utf8.enc trunc) <? len t
          then [WarnTruncated (len t) (len trunc) (py_str env sid)]
          else [])
      ++ rest /\
    existsb (@is_truncation_warning pyfloat) rest = false.
Proof.
  intros Et. unfold classify_and_store. rewrite Et.
  assert (Hs : forallb is_scalar trunc = true).
  { destruct (@TruncateFacts.truncate_result t COMPREHEND_MAX_BYTES trunc)
      as [Hs _]; [unfold COMPREHEND_MAX_BYTES; lia | assumption | assumption]. }
  run_monad. rewrite (TruncateFacts.encode_scalar _ Hs).
  destruct (len (Utf8.enc trunc) <? len t); world_simpl;
  (destruct (detect_sentiment env (length (comprehend_calls w)) trunc
                              DEFAULT_LANGUAGE_CODE) as [e | resp];
   [ destruct (is_ClientError e); run_monad; world_simpl;
     eexists; (split; [rewrite <- ?app_assoc; reflexivity | reflexivity])
   | world_simpl;
     destruct (add_relativedelta (utcnow env (clock_reads w))
                                 (relativedelta_months 12)) as [e | expires];
     [ world_simpl;
       eexists; (split; [rewrite <- ?app_assoc; reflexivity | reflexivity])
     | world_simpl;
       match goal with
       | |- context [put_item env ?n ?tbl ?it] =>
         destruct (put_item env n tbl it) as [e |]
       end;
       [ destruct (is_ClientError e); run_monad; world_simpl;
         eexists; (split; [rewrite <- ?app_assoc; reflexivity | reflexivity])
       | world_simpl;
         eexists; (split; [rewrite <- ?app_assoc; reflexivity
                          | reflexivity]) ] ] ]).
Qed.

(** The line logged by the closing [except] clauses is not the truncation
    warning. *)
Lemma outer_except_log A sid e (w : World pyfloat) :
  exists ev,
    @outer_except _ env A sid e w = (inl e, log_append w [ev]) /\
    is_truncation_warning ev = false.
Proof.
  unfold outer_except.
  destruct (is_JSONDecodeError e); [| destruct (is_ValueError e)];
    run_monad; eexists; split; reflexivity.
Qed.

(** The validation of the three fields, in the order of the source. *)
Lemma process_fields_spec d (w : World pyfloat) :
  match field_text d with
  | JStr raw =>
    if negb (truthy env (field_id d)) then
      process_fields env (JObj d) (field_id d) w
      = (inl (ValueError (lit "Survey 'id' is required")), w)
    else if negb (truthy env (field_customer d)) then
      process_fields env (JObj d) (field_id d) w
      = (inl (ValueError (lit "Survey 'customerId' is required")), w)
    else
      match strip raw with
      | [] =>
        process_fields env (JObj d) (field_id d) w
        = (inl (ValueError
                  (lit "Survey 'surveyText' is required and cannot be empty")),
           w)
      | _ :: _ =>
        process_fields env (JObj d) (field_id d) w
        = classify_and_store env (field_id d) (field_customer d) (strip raw) w
      end
  | _ => process_fields env (JObj d) (field_id d) w = (inl AttributeError, w)
  end.
Proof.
  unfold process_fields, json_get.
  fold (field_customer d). fold (field_text d).
  destruct (field_text d) as [| | | | raw | |]; run_monad;
    cbn [json_strip]; try reflexivity.
  destruct (truthy env (field_id d)); cbn [negb]; [|reflexivity].
  destruct (truthy env (field_customer d)); cbn [negb]; [|reflexivity].
  destruct (strip raw) as [| c s]; [reflexivity|].
  destruct (classify_and_store env (field_id d) (field_customer d) (c :: s) w)
    as [[e | r] w1]; reflexivity.
Qed.

(** What [process_survey_message] does: the parse, the field checks in
    turn, then classification and storage; a failure is logged once more by
    the closing [except] clauses and re-raised. *)
Lemma process_spec message_body (w : World pyfloat) :
  exists res w',
    process_survey_message env message_body w = (res, w') /\
    match json_loads env message_body with
    | None => res = inl JSONDecodeError /\ only_logged w w'
    | Some (JObj d) =>
      match field_text d with
      | JStr raw =>
        if negb (truthy env (field_id d)) then
          res = inl (ValueError (lit "Survey 'id' is required")) /\
          only_logged w w'
        else if negb (truthy env (field_customer d)) then
          res = inl (ValueError (lit "Survey 'customerId' is required")) /\
          only_logged w w'
        else
          match strip raw with
          | [] =>
            res = inl (ValueError
                   (lit "Survey 'surveyText' is required and cannot be empty")) /\
            only_logged w w'
          | _ :: _ =>
            exists w1,
              classify_and_store env (field_id d) (field_customer d)
                                 (strip raw) w = (res, w1) /\
              only_logged w1 w' /\ (forall r, res = inr r -> w' = w1)
          end
      | _ => res = inl AttributeError /\ only_logged w w'
      end
    | Some _ => res = inl AttributeError /\ only_logged w w'
    end.
Proof.
  unfold process_survey_message.
  destruct (json_loads env message_body) as [v |].
  2:{ destruct (outer_except_spec (json pyfloat) JNull JSONDecodeError w)
        as [ev E].
      cbv [bind try_except lift]. rewrite E.
      eexists _, _. split; [reflexivity|].
      split; [reflexivity | apply only_logged_append]. }
  assert (Hbad : json_get v (lit "id") JNull = inl AttributeError ->
    exists res w',
      bind (try_except (lift (json_get v (lit "id") JNull))
                       (outer_except env JNull))
           (fun survey_id =>
              try_except (process_fields env v survey_id)
                         (outer_except env survey_id)) w = (res, w') /\
      res = inl AttributeError /\ only_logged w w').
  { intros ->.
    destruct (outer_except_spec (json pyfloat) JNull AttributeError w)
      as [ev E].
    cbv [bind try_except lift]. rewrite E.
    eexists _, _. split; [reflexivity|].
    split; [reflexivity | apply only_logged_append]. }
  cbv [bind try_except lift] in Hbad |- *.
  destruct v as [| b | n | f | s | items | d]; try (apply Hbad; reflexivity).
  clear Hbad. cbn [json_get]. fold (field_id d).
  pose proof (process_fields_spec d w) as Hf.
  destruct (field_text d) as [| | | | raw | |].
  5:{ destruct (truthy env (field_id d)); cbn [negb] in *.
      2:{ rewrite Hf.
          destruct (outer_except_spec (SurveyResult pyfloat) (field_id d)
                      (ValueError (lit "Survey 'id' is required")) w) as [ev ->].
          eexists _, _. split; [reflexivity|].
          split; [reflexivity | apply only_logged_append]. }
      destruct (truthy env (field_customer d)); cbn [negb] in *.
      2:{ rewrite Hf.
          destruct (outer_except_spec (SurveyResult pyfloat) (field_id d)
                      (ValueError (lit "Survey 'customerId' is required")) w)
            as [ev ->].
          eexists _, _. split; [reflexivity|].
          split; [reflexivity | apply only_logged_append]. }
      destruct (strip raw) as [| c s].
      { rewrite Hf.
        match goal with
        | |- context [outer_except env ?sid ?e w] =>
          destruct (outer_except_spec (SurveyResult pyfloat) sid e w) as [ev ->]
        end.
        eexists _, _. split; [reflexivity|].
        split; [reflexivity | apply only_logged_append]. }
      rewrite Hf.
      destruct (classify_and_store env (field_id d) (field_customer d)
                                   (c :: s) w) as [[e | r] w1].
      - destruct (outer_except_spec (SurveyResult pyfloat) (field_id d) e w1)
          as [ev ->].
        eexists _, _. split; [reflexivity|].
        exists w1. split; [reflexivity|].
        split; [apply only_logged_append | discriminate].
      - eexists _, _. split; [reflexivity|].
        exists w1. split; [reflexivity|].
        split; [apply only_logged_refl | reflexivity]. }
  all: rewrite Hf;
    destruct (outer_except_spec (SurveyResult pyfloat) (field_id d)
                                AttributeError w) as [ev ->];
    eexists _, _; (split; [reflexivity|]);
    (split; [reflexivity | apply only_logged_append]).
Qed.

End PipelineFacts.

Section PipelineCases.

Variable pyfloat : Type.
Variable env : Env pyfloat.

(** A message that passes the field checks reaches [classify_and_store]. *)
Lemma process_valid message_body (w : World pyfloat) d raw :
  json_loads env message_body = Some (JObj d) ->
  field_text d = JStr raw ->
  truthy env (field_id d) = true ->
  truthy env (field_customer d) = true ->
  strip raw <> [] ->
  exists res w1 w',
    process_survey_message env message_body w = (res, w') /\
    classify_and_store env (field_id d) (field_customer d) (strip raw) w
    = (res, w1) /\
    only_logged w1 w' /\ (forall r, res = inr r -> w' = w1).
Proof.
  intros Ej Et Hi Hc Hs.
  destruct (process_spec env message_body w) as (res & w' & E & H).
  rewrite Ej, Et, Hi, Hc in H. cbn [negb] in H.
  destruct (strip raw) as [| c s]; [contradiction|].
  destruct H as (w1 & Ec & Hl & Hr).
  exists res, w1, w'. repeat split; assumption.
Qed.


(** A message rejected by the parse or by a field check leaves the world
    untouched but for log lines. *)
Lemma process_rejected message_body (w : World pyfloat) :
  match json_loads env message_body with
  | Some (JObj d) =>
    match field_text d with
    | JStr raw =>
      truthy env (field_id d) = false \/
      truthy env (field_customer d) = false \/ strip raw = []
    | _ => True
    end
  | _ => True
  end ->
  exists e w',
    process_survey_message env message_body w = (inl e, w') /\
    only_logged w w'.
Proof.
  destruct (process_spec env message_body w) as (res & w' & E & H).
  rewrite E. clear E. revert H.
  destruct (json_loads env message_body) as [v |];
    [| intros [-> Hl] _; eexists _, _; split; [reflexivity | assumption]].
  destruct v as [| b | n | f | s | items | d];
    try (intros [-> Hl] _; eexists _, _; split; [reflexivity | assumption]).
  destruct (field_text d) as [| | | | raw | |];
    try (intros [-> Hl] _; eexists _, _; split; [reflexivity | assumption]).
  destruct (truthy env (field_id d)); cbn [negb];
    [| intros [-> Hl] _; eexists _, _; split; [reflexivity | assumption]].
  destruct (truthy env (field_customer d)); cbn [negb];
    [| intros [-> Hl] _; eexists _, _; split; [reflexivity | assumption]].
  destruct (strip raw) as [| c s];
    [intros [-> Hl] _; eexists _, _; split; [reflexivity | assumption]|].
  intros _ [Hf | [Hf | Hf]]; discriminate.
Qed.

(** The classifier is asked about the truncated text of a validated
    message, once. *)
Lemma process_valid_classifies message_body (w : World pyfloat) d raw trunc :
  json_loads env message_body = Some (JObj d) ->
  field_text d = JStr raw ->
  truthy env (field_id d) = true ->
  truthy env (field_customer d) = true ->
  strip raw <> [] ->
  truncate_text_for_comprehend (strip raw) COMPREHEND_MAX_BYTES = inr trunc ->
  comprehend_calls (snd (process_survey_message env message_body w))
  = comprehend_calls w ++ [(trunc, DEFAULT_LANGUAGE_CODE)].
Proof.
  intros Ej Et Hi Hc Hs Htr.
  destruct (process_valid message_body w Ej Et Hi Hc Hs)
    as (res & w1 & w' & E & Ec & Hl & _).
  rewrite E. cbn [snd].
  destruct (classify_and_store_spec env (field_id d) (field_customer d)
              (strip raw) w) as (res' & w1' & Ec' & H).
  rewrite Ec in Ec'. injection Ec' as <- <-.
  rewrite Htr in H. destruct H as [Hcalls _].
  apply only_logged_calls in Hl as (_ & -> & _). assumption.
Qed.

(** When the warning is logged: for a validated message the run logs the
    truncation warning exactly when the truncated text has fewer octets than
    the validated text has characters. *)
Lemma process_valid_warning message_body (w : World pyfloat) d raw trunc :
  json_loads env message_body = Some (JObj d) ->
  field_text d = JStr raw ->
  truthy env (field_id d) = true ->
  truthy env (field_customer d) = true ->
  strip raw <> [] ->
  truncate_text_for_comprehend (strip raw) COMPREHEND_MAX_BYTES = inr trunc ->
  exists rest,
    log (snd (process_survey_message env message_body w))
    = log w
      ++ (if len (Utf8.enc trunc) <? len (strip raw)
          then [WarnTruncated (len (strip raw)) (len trunc)
                              (py_str env (field_id d))]
          else [])
      ++ rest /\
    existsb (@is_truncation_warning pyfloat) rest = false.
Proof.
  intros Ej Et Hi Hc Hs Htr.
  unfold process_survey_message. rewrite Ej.
  cbv [bind try_except lift]. cbn [json_get]. fold (field_id d).
  pose proof (process_fields_spec env d w) as Hf.
  rewrite Et, Hi, Hc in Hf. cbn [negb] in Hf.
  destruct (@classify_and_store_log pyfloat env (field_id d)
              (field_customer d) (strip raw) w trunc Htr)
    as (rest & Hlog & Hno).
  revert Hf Hlog Hs.
  destruct (strip raw) as [| c s]; [intros _ _ Hs; contradiction|].
  intros Hf Hlog _. rewrite Hf.
  destruct (classify_and_store env (field_id d) (field_customer d) (c :: s) w)
    as [[e | r] w1]; cbn [snd] in Hlog.
  - destruct (outer_except_log env (SurveyResult pyfloat) (field_id d) e w1)
      as (ev & -> & Hev).
    cbn [snd log log_append]. rewrite Hlog.
    exists (rest ++ [ev]). split; [rewrite <- !app_assoc; reflexivity|].
    rewrite existsb_app, Hno. cbn [existsb orb]. rewrite Hev. reflexivity.
  - cbn [snd]. exists rest. split; assumption.
Qed.

End PipelineCases.

(** ** The text handed to the classifier *)

Lemma pystr_eqb_refl s : pystr_eqb s s = true.
Proof. unfold pystr_eqb. destruct (list_eq_dec Z.eq_dec s s); congruence. Qed.

Lemma well_formed_enc t :
  forallb is_scalar t = true -> Utf8.well_formed (Utf8.enc t) = true.
Proof.
  intros Hs. unfold Utf8.well_formed.
  rewrite (Utf8Facts.decode_enc _ Hs), Hs, pystr_eqb_refl. reflexivity.
Qed.

(** C9. For every budget that is not negative (the default 5000 is one) and
    every string, [truncate_text_for_comprehend] returns on a string without
    lone surrogates, what it returns is a prefix of the string, and applying
    it to its own result returns that result unchanged. *)
Theorem truncate_is_prefix_and_idempotent (text : pystr) (max_bytes : Z) :
  0 <= max_bytes ->
  (forallb is_scalar text = true ->
   exists r, truncate_text_for_comprehend text max_bytes = inr r) /\
  (forall r,
     truncate_text_for_comprehend text max_bytes = inr r ->
     (exists rest, text = r ++ rest) /\
     truncate_text_for_comprehend r max_bytes = inr r).
Proof.
  intros Hm. split.
  - intros Hs.
    destruct (Z.le_gt_cases (len (Utf8.enc text)) max_bytes) as [Hle | Hgt].
    + exists text. now apply TruncateFacts.truncate_short.
    + destruct (@TruncateFacts.truncate_fits text max_bytes Hs)
        as (r & _ & E & _); [lia|].
      exists r. assumption.
  - intros r E.
    destruct (TruncateFacts.truncate_prefix _ _ E) as (_ & Hrest).
    destruct (@TruncateFacts.truncate_result text max_bytes r Hm E)
      as (Hsr & Hl).
    split; [assumption|].
    now apply TruncateFacts.truncate_short.
Qed.

(** C3. A text whose UTF-8 encoding is longer than 5000 octets is cut to a
    text whose encoding has at most 5000 octets, is well-formed UTF-8 (whole
    code points only) and starts the original octets; that text is the one
    the pipeline sends to the classifier. *)
Theorem long_text_is_cut_to_budget (text : pystr) (bs : pybytes) :
  Utf8.encode text = Some bs ->
  COMPREHEND_MAX_BYTES < len bs ->
  exists r bs',
    truncate_text_for_comprehend text COMPREHEND_MAX_BYTES = inr r /\
    Utf8.encode r = Some bs' /\
    len bs' <= COMPREHEND_MAX_BYTES /\
    Utf8.well_formed bs' = true /\
    (exists tail, bs = bs' ++ tail) /\
    forall (pyfloat : Type) (env : Env pyfloat) message_body w d raw,
      json_loads env message_body = Some (JObj d) ->
      field_text d = JStr raw ->
      strip raw = text ->
      truthy env (field_id d) = true ->
      truthy env (field_customer d) = true ->
      comprehend_calls (snd (process_survey_message env message_body w))
      = comprehend_calls w ++ [(r, DEFAULT_LANGUAGE_CODE)].
Proof.
  intros E Hlen. apply TruncateFacts.encode_Some in E as [Hs ->].
  destruct (@TruncateFacts.truncate_fits text COMPREHEND_MAX_BYTES Hs)
    as (r & rest & Et & Erest & Hsr & Hl);
    [unfold COMPREHEND_MAX_BYTES in *; lia|].
  exists r, (Utf8.enc r).
  split; [assumption|].
  split; [now apply TruncateFacts.encode_scalar|].
  split; [assumption|].
  split; [now apply well_formed_enc|].
  split.
  { exists (Utf8.enc rest). rewrite Erest at 1. apply Utf8Facts.enc_app. }
  intros pyfloat env message_body w d raw Ej Ef Es Hi Hc.
  apply (@process_valid_classifies pyfloat env message_body w d raw r);
    try assumption.
  - rewrite Es. intros ->. unfold COMPREHEND_MAX_BYTES in Hlen.
    cbn in Hlen. lia.
  - rewrite Es. assumption.
Qed.


(** ** The stored record *)

Lemma build_item_surveyText pyfloat (env : Env pyfloat) sid cid t s sc c e :
  dict_get (lit "surveyText") (build_item env sid cid t s sc c e)
  = Some (AttrS t).
Proof. reflexivity. Qed.



(** C1, amended. For every message that passes the field checks, every
    record the run writes carries as [surveyText] the message's text with
    leading and trailing whitespace removed (the validated text), whatever
    the classifier was sent; a run that returns has written exactly one such
    record. *)
Theorem stored_text_is_validated_text
    (pyfloat : Type) (env : Env pyfloat) message_body (w : World pyfloat) d raw :
  json_loads env message_body = Some (JObj d) ->
  field_text d = JStr raw ->
  truthy env (field_id d) = true ->
  truthy env (field_customer d) = true ->
  strip raw <> [] ->
  exists res w',
    process_survey_message env message_body w = (res, w') /\
    ((put_item_calls w' = put_item_calls w /\ exists e, res = inl e) \/
     (exists item,
        put_item_calls w' = put_item_calls w ++ [(TABLE_NAME env, item)] /\
        dict_get (lit "surveyText") item = Some (AttrS (strip raw)))) /\
    (forall sent,
       truncate_text_for_comprehend (strip raw) COMPREHEND_MAX_BYTES = inr sent ->
       comprehend_calls w' = comprehend_calls w ++ [(sent, DEFAULT_LANGUAGE_CODE)]).
Proof.
  intros Ej Et Hi Hc Hs.
  destruct (process_valid env message_body w Ej Et Hi Hc Hs)
    as (res & w1 & w' & E & Ec & Hl & _).
  exists res, w'. split; [assumption|].
  split.
  2:{ intros sent Hsent.
      pose proof (@process_valid_classifies pyfloat env message_body w d raw
                    sent Ej Et Hi Hc Hs Hsent) as H.
      rewrite E in H. exact H. }
  apply only_logged_calls in Hl as (_ & _ & Hput). rewrite Hput.
  destruct (classify_and_store_spec env (field_id d) (field_customer d)
              (strip raw) w) as (res' & w1' & Ec' & H).
  rewrite Ec in Ec'. injection Ec' as <- <-.
  destruct (truncate_text_for_comprehend (strip raw) COMPREHEND_MAX_BYTES)
    as [e | trunc].
  { destruct H as [-> ->]. left. split; [reflexivity | eexists; reflexivity]. }
  destruct H as [_ H].
  destruct (detect_sentiment env _ trunc DEFAULT_LANGUAGE_CODE) as [e | resp].
  { destruct H as (-> & -> & _). left.
    split; [reflexivity | eexists; reflexivity]. }
  destruct (add_relativedelta _ _) as [e | expires].
  { destruct H as (-> & ->). left.
    split; [reflexivity | eexists; reflexivity]. }
  destruct H as (Hput' & _). right.
  eexists. split; [exact Hput' | apply build_item_surveyText].
Qed.



(** ** The batch loop *)

Section BatchFacts.

Variable pyfloat : Type.
Variable env : Env pyfloat.

Ltac run_batch :=
  cbv [bind try_except lift ret raise logger].

(** One iteration never raises; it counts a success or a failure according
    to the outcome of the entry, and the world it leaves does not depend on
    the counters. *)
Lemma handle_record_spec i record p f (w : World pyfloat) :
  exists w',
    handle_record env i record (p, f) w
    = (inr (if entry_succeeds env record w then (p + 1, f) else (p, f + 1)),
       w') /\
    forall p' f', snd (handle_record env i record (p', f') w) = w'.
Proof.
  unfold handle_record, entry_succeeds.
  destruct (body record) as [[| c s] |]; run_batch;
    try (eexists; split; [reflexivity | reflexivity]).
  destruct (process_survey_message env (c :: s) w) as [[e | r] w1].
  - destruct (is_ValueError e); [| destruct (is_ClientError e)];
      eexists; split; reflexivity.
  - eexists; split; reflexivity.
Qed.

Lemma successes_cons b l :
  successes (b :: l) = (if b then 1 else 0) + successes l.
Proof.
  unfold successes, len. cbn [filter].
  destruct b; cbn [length]; lia.
Qed.

Lemma failures_cons b l :
  failures (b :: l) = (if b then 0 else 1) + failures l.
Proof.
  unfold failures, len. cbn [filter].
  destruct b; cbn [negb length]; lia.
Qed.



(** The loop never raises, and its counters add the successes and the
    failures of the entries. *)
Lemma main_loop_spec records : forall i p f (w : World pyfloat),
  exists w',
    main_loop env i records (p, f) w
    = (inr (p + successes (entry_outcomes env i records w),
            f + failures (entry_outcomes env i records w)), w').
Proof.
  induction records as [| r rs IH]; intros i p f w.
  - exists w. cbn [main_loop entry_outcomes]. unfold ret.
    unfold successes, failures, len. cbn [filter length].
    rewrite !Z.add_0_r. reflexivity.
  - cbn [main_loop entry_outcomes].
    destruct (handle_record_spec i r p f w) as (w1 & E & Hw).
    unfold bind at 1. rewrite E, (Hw 0 0).
    rewrite successes_cons, failures_cons.
    destruct (entry_succeeds env r w).
    + destruct (IH (S i) (p + 1) f w1) as (w' & ->).
      exists w'. do 2 f_equal. f_equal; lia.
    + destruct (IH (S i) p (f + 1) w1) as (w' & ->).
      exists w'. do 2 f_equal. f_equal; lia.
Qed.

End BatchFacts.


(** C8. An entry whose body is absent or empty is counted as a failure; the
    iteration only logs the empty-body warning, whatever the parser, the
    clock and the services are, so the pipeline is not run, nothing is sent
    to the classifier or the table, and the loop goes on with the next
    entry. *)
Theorem empty_body_is_counted_as_failure
    (pyfloat : Type) (env : Env pyfloat) i record rest p f (w : World pyfloat) :
  body record = None \/ body record = Some [] ->
  handle_record env i record (p, f) w
  = (inr (p, f + 1), log_append w [WarnEmptyBody (record_id_of i record)]) /\
  entry_succeeds env record w = false /\
  main_loop env i (record :: rest) (p, f) w
  = main_loop env (S i) rest (p, f + 1)
              (log_append w [WarnEmptyBody (record_id_of i record)]).
Proof.
  intros Hb.
  assert (E : handle_record env i record (p, f) w
    = (inr (p, f + 1), log_append w [WarnEmptyBody (record_id_of i record)])).
  { unfold handle_record.
    destruct Hb as [-> | ->]; reflexivity. }
  split; [assumption|]. split.
  - unfold entry_succeeds. destruct Hb as [-> | ->]; reflexivity.
  - cbn [main_loop]. unfold bind at 1. rewrite E. reflexivity.
Qed.

(** C10. An entry whose body parses to a JSON value that is not an object is
    counted as a failure: the pipeline raises on the first field lookup, the
    iteration only logs, and the loop goes on with the next entry. *)
Theorem non_object_body_is_counted_as_failure
    (pyfloat : Type) (env : Env pyfloat) i record message_body v rest p f
    (w : World pyfloat) :
  body record = Some message_body ->
  json_loads env message_body = Some v ->
  (forall d, v <> JObj d) ->
  (exists w1,
     process_survey_message env message_body w = (inl AttributeError, w1) /\
     only_logged w w1) /\
  exists w',
    handle_record env i record (p, f) w = (inr (p, f + 1), w') /\
    only_logged w w' /\
    main_loop env i (record :: rest) (p, f) w
    = main_loop env (S i) rest (p, f + 1) w'.
Proof.
  intros Hb Ej Hv.
  assert (Hp : exists w1,
     process_survey_message env message_body w = (inl AttributeError, w1) /\
     only_logged w w1).
  { destruct (process_spec env message_body w) as (res & w1 & E & H).
    rewrite Ej in H. exists w1. rewrite E.
    destruct v as [| b | n | fl | s | items | d];
      try (destruct H as [-> Hl]; split; [reflexivity | assumption]).
    exfalso. apply (Hv d). reflexivity. }
  split; [assumption|].
  destruct Hp as (w1 & Ep & Hl).
  assert (E : exists w',
    handle_record env i record (p, f) w = (inr (p, f + 1), w') /\
    only_logged w w').
  { unfold handle_record. rewrite Hb.
    destruct message_body as [| c s].
    - cbv [bind try_except ret logger]. eexists.
      split; [reflexivity | apply only_logged_append].
    - cbv [bind try_except ret logger]. rewrite Ep.
      cbn [is_ValueError is_ClientError]. eexists.
      split; [reflexivity|].
      eapply only_logged_trans; [exact Hl | apply only_logged_append]. }
  destruct E as (w' & E & Hl'). exists w'.
  split; [assumption|]. split; [assumption|].
  cbn [main_loop]. unfold bind at 1. rewrite E. reflexivity.
Qed.

(** ** Concrete runs *)

Module Runs.
Import Demo.

(** Three euro signs cut to six octets. *)
Lemma truncate_is_prefix_and_idempotent_witness :
  0 <= 6 /\
  (forallb is_scalar (repeat 0x20AC 3) = true ->
   exists r, truncate_text_for_comprehend (repeat 0x20AC 3) 6 = inr r) /\
  (forall r,
     truncate_text_for_comprehend (repeat 0x20AC 3) 6 = inr r ->
     (exists rest, repeat 0x20AC 3 = r ++ rest) /\
     truncate_text_for_comprehend r 6 = inr r).
Proof.
  split; [lia|].
  apply (truncate_is_prefix_and_idempotent (repeat 0x20AC 3) (max_bytes := 6)).
  lia.
Defined.

(** Two thousand euro signs (6000 octets). *)
Lemma long_text_is_cut_to_budget_witness :
  Utf8.encode euro_text = Some (Utf8.enc euro_text) /\
  COMPREHEND_MAX_BYTES < len (Utf8.enc euro_text) /\
  exists r bs',
    truncate_text_for_comprehend euro_text COMPREHEND_MAX_BYTES = inr r /\
    Utf8.encode r = Some bs' /\
    len bs' <= COMPREHEND_MAX_BYTES /\
    Utf8.well_formed bs' = true.
Proof.
  assert (H1 : Utf8.encode euro_text = Some (Utf8.enc euro_text))
    by (vm_compute; reflexivity).
  assert (H2 : COMPREHEND_MAX_BYTES < len (Utf8.enc euro_text))
    by (vm_compute; reflexivity).
  split; [exact H1|]. split; [exact H2|].
  destruct (long_text_is_cut_to_budget euro_text H1 H2)
    as (r & bs' & Ht & He & Hl & Hw & _).
  exists r, bs'. repeat split; assumption.
Defined.


(** Where the text has surrounding whitespace the stored text is not the
    text of the message: the message passes the field checks and the run
    returns, but the record holds the trimmed text [hi], two characters, not
    the six characters of the message. *)
Lemma stored_text_differs_from_padded_input :
  json_loads (env steady) (json_text msg_padded)
  = Some (message (lit "s2") (lit "c1") (lit "  hi  ")) /\
  (exists r, fst (run steady msg_padded) = inr r) /\
  written_attribute (lit "surveyText") (snd (run steady msg_padded))
  = [Some (AttrS (lit "hi"))] /\
  AttrS (lit "hi") <> AttrS (lit "  hi  ").
Proof.
  split; [vm_compute; reflexivity|].
  split; [eexists; vm_compute; reflexivity|].
  split; [vm_compute; reflexivity|].
  vm_compute. discriminate.
Qed.

(** The same message: what is stored is the trimmed text. *)
Lemma stored_text_is_validated_text_witness :
  json_loads (env steady) (json_text msg_padded)
  = Some (JObj [ (lit "id", JStr (lit "s2"));
                 (lit "customerId", JStr (lit "c1"));
                 (lit "surveyText", JStr (lit "  hi  ")) ]) /\
  strip (lit "  hi  ") = lit "hi" /\
  exists res w',
    process_survey_message (env steady) (json_text msg_padded) empty_world
    = (res, w') /\
    ((put_item_calls w' = [] /\ exists e, res = inl e) \/
     (exists item,
        put_item_calls w' = [(TABLE_NAME (env steady), item)] /\
        dict_get (lit "surveyText") item = Some (AttrS (lit "hi")))).
Proof.
  assert (Ej : json_loads (env steady) (json_text msg_padded)
    = Some (JObj [ (lit "id", JStr (lit "s2"));
                   (lit "customerId", JStr (lit "c1"));
                   (lit "surveyText", JStr (lit "  hi  ")) ]))
    by (vm_compute; reflexivity).
  assert (Es : strip (lit "  hi  ") = lit "hi") by (vm_compute; reflexivity).
  split; [exact Ej|]. split; [exact Es|].
  destruct (@stored_text_is_validated_text pyfloat (env steady)
              (json_text msg_padded) empty_world _ (lit "  hi  ") Ej)
    as (res & w' & E & H & _);
    [ vm_compute; reflexivity | vm_compute; reflexivity
    | vm_compute; reflexivity | rewrite Es; vm_compute; discriminate |].
  exists res, w'. split; [exact E|].
  rewrite Es in H. exact H.
Defined.





(** C7 on two thousand euro signs: the validated text has 2000 characters
    and the classifier receives its first 1666, yet the guard compares the
    4998 octets of the truncated text with the 2000 characters of the
    original and no warning is logged. *)
Lemma truncation_of_multibyte_text_is_not_logged :
  strip euro_text = euro_text /\
  len euro_text = 2000 /\
  classified_texts (snd (run steady msg_euro))
  = [repeat 0x20AC (Z.to_nat 1666)] /\
  log (snd (run steady msg_euro))
  = [ InfoComprehend (lit "s3") (lit "POSITIVE") None;
      InfoStored (lit "s3") (lit "c1") (lit "POSITIVE") ].
Proof.
  split; [vm_compute; reflexivity|].
  split; [vm_compute; reflexivity|].
  split; vm_compute; reflexivity.
Qed.

(** With text of one octet per character the warning is logged. *)
Lemma truncation_of_ascii_text_is_logged :
  classified_texts (snd (run steady msg_ascii_long))
  = [repeat 97 (Z.to_nat 5000)] /\
  log (snd (run steady msg_ascii_long))
  = [ WarnTruncated 5001 5000 (lit "s4");
      InfoComprehend (lit "s4") (lit "POSITIVE") None;
      InfoStored (lit "s4") (lit "c1") (lit "POSITIVE") ].
Proof. split; vm_compute; reflexivity. Qed.


(** The entry without a body, fifth of its batch. *)
Lemma empty_body_is_counted_as_failure_witness :
  body (mkRecord None None) = None /\
  handle_record (env steady) 4 (mkRecord None None) (1, 3) empty_world
  = (inr (1, 3 + 1),
     log_append empty_world [WarnEmptyBody (lit "record-4")]).
Proof.
  split; [reflexivity|].
  exact (proj1 (@empty_body_is_counted_as_failure pyfloat (env steady) 4
                  (mkRecord None None) [] 1 3 empty_world
                  (or_introl eq_refl))).
Defined.

(** The body [[1]]. *)
Lemma non_object_body_is_counted_as_failure_witness :
  body (sqs msg_list) = Some (json_text msg_list) /\
  json_loads (env steady) (json_text msg_list) = Some (JArr [JInt 1]) /\
  exists w',
    handle_record (env steady) 0 (sqs msg_list) (0, 0) empty_world
    = (inr (0, 0 + 1), w') /\
    only_logged empty_world w'.
Proof.
  assert (Ej : json_loads (env steady) (json_text msg_list)
               = Some (JArr [JInt 1])) by (vm_compute; reflexivity).
  split; [reflexivity|]. split; [exact Ej|].
  destruct (@non_object_body_is_counted_as_failure pyfloat (env steady) 0
              (sqs msg_list) (json_text msg_list) (JArr [JInt 1]) [] 0 0
              empty_world eq_refl Ej)
    as (_ & w' & E & Hl & _); [intros d; discriminate|].
  exists w'. split; [exact E | exact Hl].
Defined.

End Runs.

(** * Further properties *)

(** ** Start-up *)


(** ** The loop on dangling octets, and how much a cut gives up *)

Module CutFacts.
Import Utf8 Utf8Facts StripFacts TruncateFacts.

Lemma strip_loop_dropped fuel : forall bs,
  exists dropped,
    bs = strip_loop fuel bs ++ dropped /\ forallb dangling dropped = true.
Proof.
  induction fuel as [| fuel IH]; intros bs.
  - exists []. split; [symmetry; apply app_nil_r | reflexivity].
  - cbn [strip_loop]. destruct bs as [| b bs].
    + exists []. split; reflexivity.
    + destruct (dangling (last (b :: bs) 0)) eqn:E.
      * destruct (IH (removelast (b :: bs))) as (d & Hd & Hall).
        exists (d ++ [last (b :: bs) 0]). split.
        -- rewrite app_assoc, <- Hd.
           apply app_removelast_last. discriminate.
        -- rewrite forallb_app, Hall. cbn [forallb]. rewrite E. reflexivity.
      * exists []. split; [symmetry; apply app_nil_r | reflexivity].
Qed.

Lemma forallb_octet_app l1 l2 :
  forallb is_octet (l1 ++ l2) = true ->
  forallb is_octet l1 = true /\ forallb is_octet l2 = true.
Proof. rewrite forallb_app. apply andb_prop. Qed.

Lemma is_octet_range b : is_octet b = true -> 0 <= b < 256.
Proof.
  unfold is_octet. intros H. apply andb_prop in H as [H0 H1].
  apply Z.leb_le in H0. apply Z.ltb_lt in H1. lia.
Qed.

Lemma encode_cp_length c : (1 <= length (encode_cp c) <= 4)%nat.
Proof.
  unfold encode_cp.
  destruct (c <? 0x80); [| destruct (c <? 0x800); [| destruct (c <? 0x10000)]];
    cbn [length]; lia.
Qed.

(** As [firstn_enc_split], with the length of the part of a code point the
    cut leaves behind. *)
Lemma firstn_enc_split_bound t : forall n,
  forallb is_scalar t = true ->
  exists t1 t2 p,
    t = t1 ++ t2 /\ firstn n (enc t) = enc t1 ++ p /\
    (p = [] \/
     exists x conts, p = x :: conts /\ is_lead x = true /\
                     forallb is_continuation conts = true /\
                     (length p <= 3)%nat).
Proof.
  induction t as [| c t IH]; intros n Hs.
  - exists [], [], []. rewrite firstn_nil. repeat split. now left.
  - cbn [forallb] in Hs. apply andb_prop in Hs as [Hc Ht].
    change (enc (c :: t)) with (encode_cp c ++ enc t).
    destruct (Nat.le_gt_cases (length (encode_cp c)) n) as [Hn | Hn].
    + destruct (IH (n - length (encode_cp c))%nat Ht)
        as (t1 & t2 & p & Et & Ef & Hp).
      exists (c :: t1), t2, p. split; [rewrite Et; reflexivity|].
      split; [|assumption].
      rewrite firstn_app, (firstn_all2 (encode_cp c) Hn).
      rewrite Ef. change (enc (c :: t1)) with (encode_cp c ++ enc t1).
      apply app_assoc.
    + exists [], (c :: t), (firstn n (encode_cp c)).
      split; [reflexivity|]. split.
      { rewrite firstn_app.
        replace (n - length (encode_cp c))%nat with O by lia.
        rewrite firstn_O. apply app_nil_r. }
      pose proof (encode_cp_length c) as Hlen.
      pose proof (firstn_le_length n (encode_cp c)) as Hfl.
      destruct (encode_cp_shape c Hc) as (x & conts & Ee & Hx & Hconts & Hk).
      rewrite Ee in *. destruct n as [| n]; [left; reflexivity|].
      right. exists x, (firstn n conts). split; [reflexivity|].
      split; [| split; [apply forallb_firstn; assumption | lia]].
      destruct Hk as [(_ & Enil & _) | (_ & Hlead)]; [| assumption].
      subst conts. cbn [length] in Hn. lia.
Qed.

(** As [cut_strip_decode], with the number of octets given up. *)
Lemma cut_strip_decode_bound t n :
  forallb is_scalar t = true ->
  exists t1 t2 dropped,
    t = t1 ++ t2 /\
    decode_ignore (strip_incomplete (firstn n (enc t))) = t1 /\
    firstn n (enc t) = enc t1 ++ dropped /\
    (length dropped <= 4)%nat.
Proof.
  intros Hs.
  destruct (firstn_enc_split_bound t n Hs) as (t1 & t2 & p & Et & Ef & Hp).
  assert (Hs1 : forallb is_scalar t1 = true).
  { rewrite Et in Hs. now apply forallb_scalar_app in Hs. }
  destruct Hp as [Ep | (x & conts & Ep & Hx & Hconts & Hl)].
  - subst p. rewrite app_nil_r in Ef.
    destruct t1 as [| c0 t1'] using rev_ind.
    + exists [], t, []. rewrite Ef. repeat split. cbn [length]. lia.
    + clear IHt1'. apply forallb_scalar_app in Hs1 as [Hs1 Hc].
      cbn [forallb] in Hc. rewrite andb_true_r in Hc.
      pose proof (encode_cp_length c0) as Hlen.
      destruct (encode_cp_shape c0 Hc) as (x & conts & Ee & Hx & Hconts & Hk).
      assert (Eenc : enc (t1' ++ [c0]) = enc t1' ++ x :: conts).
      { rewrite enc_app. unfold enc at 2. cbn [flat_map].
        rewrite app_nil_r, Ee. reflexivity. }
      destruct Hk as [(Hlt & Enil & Ex & Hx0) | (_ & Hlead)].
      * subst conts. exists (t1' ++ [c0]), t2, [].
        split; [assumption|].
        split; [| split; [rewrite app_nil_r; assumption | cbn [length]; lia]].
        rewrite Ef, Eenc, strip_incomplete_conts;
          [| reflexivity | apply dangling_ascii; lia].
        rewrite <- Eenc. apply decode_enc.
        rewrite forallb_app, Hs1. cbn [forallb]. now rewrite Hc.
      * exists t1', ([c0] ++ t2), (x :: conts).
        split; [rewrite Et, <- app_assoc; reflexivity|].
        split; [| split; [rewrite Ef; assumption | rewrite <- Ee; lia]].
        rewrite Ef, Eenc, strip_incomplete_conts;
          [| assumption | apply dangling_lead; assumption].
        apply decode_enc_lead; assumption.
  - subst p. exists t1, t2, (x :: conts).
    split; [assumption|]. split; [| split; [assumption | lia]].
    rewrite Ef, strip_incomplete_conts;
      [| assumption | apply dangling_lead; assumption].
    apply decode_enc_lead; assumption.
Qed.

Lemma is_ascii_range c : is_ascii c = true -> 0 <= c < 0x80.
Proof.
  unfold is_ascii. intros H. apply andb_prop in H as [H0 H1].
  apply Z.leb_le in H0. apply Z.ltb_lt in H1. lia.
Qed.

Lemma ascii_is_scalar c : is_ascii c = true -> is_scalar c = true.
Proof.
  intros H. apply is_ascii_range in H. unfold is_scalar, is_surrogate.
  destruct (Z.leb_spec 0 c); [|lia].
  destruct (Z.leb_spec c 0x10FFFF); [|lia].
  destruct (Z.leb_spec 0xD800 c); [lia|]. reflexivity.
Qed.

Lemma ascii_scalar text :
  forallb is_ascii text = true -> forallb is_scalar text = true.
Proof.
  induction text as [| c t IH]; [reflexivity|].
  cbn [forallb]. intros H. apply andb_prop in H as [Hc Ht].
  rewrite (ascii_is_scalar _ Hc), (IH Ht). reflexivity.
Qed.

(** ASCII text is its own encoding. *)
Lemma enc_ascii text : forallb is_ascii text = true -> enc text = text.
Proof.
  induction text as [| c t IH]; [reflexivity|].
  cbn [forallb]. intros H. apply andb_prop in H as [Hc Ht].
  change (enc (c :: t)) with (encode_cp c ++ enc t).
  rewrite encode_cp_1 by (apply is_ascii_range in Hc; lia).
  rewrite (IH Ht). reflexivity.
Qed.

Lemma strip_incomplete_ascii bs :
  forallb is_ascii bs = true -> strip_incomplete bs = bs.
Proof.
  destruct bs as [| b bs] using rev_ind; [reflexivity|].
  rewrite forallb_app. intros H. apply andb_prop in H as [_ Hb].
  cbn [forallb] in Hb. rewrite andb_true_r in Hb.
  apply strip_incomplete_conts; [reflexivity|].
  apply dangling_ascii. now apply is_ascii_range.
Qed.

(** On ASCII text the cut keeps the first characters. *)
Lemma truncate_ascii text max_bytes :
  forallb is_ascii text = true ->
  0 <= max_bytes ->
  truncate_text_for_comprehend text max_bytes
  = inr (firstn (Z.to_nat max_bytes) text).
Proof.
  intros Ha Hm. unfold truncate_text_for_comprehend.
  rewrite (TruncateFacts.encode_scalar _ (ascii_scalar _ Ha)).
  rewrite (enc_ascii _ Ha).
  destruct (Z.leb_spec (len text) max_bytes) as [Hle | Hgt].
  - rewrite firstn_all2; [reflexivity | unfold len in Hle; lia].
  - unfold slice_to. destruct (Z.ltb_spec max_bytes 0); [lia|].
    assert (Hf : forallb is_ascii (firstn (Z.to_nat max_bytes) text) = true)
      by (apply TruncateFacts.forallb_firstn; assumption).
    rewrite (strip_incomplete_ascii _ Hf).
    rewrite <- (enc_ascii _ Hf) at 1.
    rewrite (Utf8Facts.decode_enc _ (ascii_scalar _ Hf)).
    reflexivity.
Qed.

End CutFacts.

(** X2. On a string of octets the loop removes the continuation octets at
    the end and nothing else: what it drops are continuation octets, and what
    it keeps is empty or ends with an octet that is not one. *)
Theorem strip_incomplete_drops_trailing_continuations (bs : pybytes) :
  forallb is_octet bs = true ->
  exists dropped,
    bs = strip_incomplete bs ++ dropped /\
    forallb Utf8.is_continuation dropped = true /\
    (strip_incomplete bs = [] \/
     Utf8.is_continuation (last (strip_incomplete bs) 0) = false).
Proof.
  intros Hb. unfold strip_incomplete.
  destruct (CutFacts.strip_loop_dropped (length bs) bs) as (d & Hd & Hall).
  exists d. split; [assumption|].
  assert (Hoct : forallb is_octet (strip_loop (length bs) bs) = true /\
                 forallb is_octet d = true).
  { rewrite Hd in Hb at 1. now apply CutFacts.forallb_octet_app in Hb. }
  destruct Hoct as [Hk Hdo]. split.
  - clear Hd. induction d as [| b d IH]; [reflexivity|].
    cbn [forallb] in *. apply andb_prop in Hall as [Hb1 Hall].
    apply andb_prop in Hdo as [Hb2 Hdo].
    rewrite <- (StripFacts.dangling_octet
                  (CutFacts.is_octet_range _ Hb2)), Hb1.
    apply IH; assumption.
  - destruct (@StripFacts.strip_loop_done (length bs) bs (Nat.le_refl _))
      as [E | E]; [left; assumption|].
    destruct (strip_loop (length bs) bs) as [| k ks] eqn:Ek;
      [left; reflexivity|].
    right. rewrite <- StripFacts.dangling_octet; [assumption|].
    apply CutFacts.is_octet_range.
    rewrite forallb_forall in Hk. apply Hk.
    rewrite (app_removelast_last 0 (l := k :: ks)) at 2 by discriminate.
    apply in_or_app. right. left. reflexivity.
Qed.

(** X3. When a text is cut, the result gives up at most four octets of the
    budget: its encoding has between [max_bytes - 4] and [max_bytes]
    octets. *)
Theorem truncate_gives_up_at_most_four_octets (text : pystr) (max_bytes : Z) :
  forallb is_scalar text = true ->
  0 <= max_bytes < len (Utf8.enc text) ->
  exists r,
    truncate_text_for_comprehend text max_bytes = inr r /\
    max_bytes - 4 <= len (Utf8.enc r) <= max_bytes.
Proof.
  intros Hs Hm. unfold truncate_text_for_comprehend.
  rewrite (TruncateFacts.encode_scalar _ Hs).
  destruct (Z.leb_spec (len (Utf8.enc text)) max_bytes); [lia|].
  destruct (TruncateFacts.slice_to_firstn max_bytes (Utf8.enc text))
    as (k & -> & Hk).
  specialize (Hk (proj1 Hm)).
  destruct (CutFacts.cut_strip_decode_bound text k Hs)
    as (t1 & t2 & d & Et & Ed & Ef & Hd).
  exists t1. rewrite Ed. split; [reflexivity|].
  assert (Hl : length (firstn k (Utf8.enc text)) = k).
  { apply firstn_length_le. unfold len in Hm. lia. }
  rewrite Ef, length_app in Hl. unfold len. lia.
Qed.

(** X4. On ASCII text the function keeps exactly the first [max_bytes]
    characters (all of them when the text is shorter). *)
Theorem truncate_ascii_is_firstn (text : pystr) (max_bytes : Z) :
  forallb is_ascii text = true ->
  0 <= max_bytes ->
  truncate_text_for_comprehend text max_bytes
  = inr (firstn (Z.to_nat max_bytes) text).
Proof. apply CutFacts.truncate_ascii. Qed.

(** ** The pipeline, stage by stage *)

Section Stages.

Variable pyfloat : Type.
Variable env : Env pyfloat.

Ltac step_monad :=
  cbv [bind try_except lift ret raise raise_if logger datetime_now
       comprehend_detect_sentiment dynamodb_put_item calculate_expires_at].

Ltac step_world :=
  unfold log_append;
  cbn [clock_reads comprehend_calls put_item_calls log fst snd].

Lemma outer_except_line A sid e (w : World pyfloat) :
  @outer_except _ env A sid e w
  = (inl e, log_append w [pipeline_failure_line env sid e]).
Proof.
  unfold outer_except, pipeline_failure_line.
  destruct (is_JSONDecodeError e); [| destruct (is_ValueError e)];
    reflexivity.
Qed.

(** A message that passes the field checks runs [classify_and_store] under
    the closing [except] clauses. *)
Lemma process_valid_eq message_body (w : World pyfloat) d raw :
  json_loads env message_body = Some (JObj d) ->
  field_text d = JStr raw ->
  truthy env (field_id d) = true ->
  truthy env (field_customer d) = true ->
  strip raw <> [] ->
  process_survey_message env message_body w
  = try_except (classify_and_store env (field_id d) (field_customer d)
                                   (strip raw))
               (outer_except env (field_id d)) w.
Proof.
  intros Ej Et Hi Hc Hs.
  unfold process_survey_message. rewrite Ej.
  cbv [bind try_except lift]. cbn [json_get]. fold (field_id d).
  pose proof (process_fields_spec env d w) as Hf.
  rewrite Et, Hi, Hc in Hf. cbn [negb] in Hf. revert Hf Hs.
  destruct (strip raw) as [| c s]; [intros _ Hs; contradiction|].
  intros -> _. reflexivity.
Qed.

(** The whole of [classify_and_store] on a text that encodes: result and
    world after each way the stages can end. *)
Lemma classify_and_store_eq sid cid t (w : World pyfloat) sent :
  truncate_text_for_comprehend t COMPREHEND_MAX_BYTES = inr sent ->
  classify_and_store env sid cid t w
  = let calls := comprehend_calls w ++ [(sent, DEFAULT_LANGUAGE_CODE)] in
    let warned := log w ++ truncation_warning env sid t sent in
    match detect_sentiment env (length (comprehend_calls w)) sent
                           DEFAULT_LANGUAGE_CODE with
    | inl e =>
      (inl e,
       mkWorld (clock_reads w) calls (put_item_calls w)
               (warned ++ [classifier_failure_line env sid e]))
    | inr resp =>
      match add_relativedelta (utcnow env (clock_reads w))
                              (relativedelta_months 12) with
      | inl e =>
        (inl e,
         mkWorld (S (clock_reads w)) calls (put_item_calls w)
                 (warned ++ [classified_line env sid resp]))
      | inr expires =>
        let item := record_for env sid cid t resp (clock_reads w) expires in
        let writes := put_item_calls w ++ [(TABLE_NAME env, item)] in
        match put_item env (length (put_item_calls w)) (TABLE_NAME env) item with
        | Some e =>
          (inl e,
           mkWorld (S (S (clock_reads w))) calls writes
                   (warned ++ [classified_line env sid resp;
                               storage_failure_line env sid e]))
        | None =>
          (inr (mkResult sid (Sentiment resp)
                         (dict_get (Sentiment resp) (SentimentScore resp))),
           mkWorld (S (S (clock_reads w))) calls writes
                   (warned ++ [classified_line env sid resp;
                               InfoStored (py_str env sid) (py_str env cid)
                                          (Sentiment resp)]))
        end
      end
    end.
Proof.
  intros Et. unfold classify_and_store. rewrite Et.
  assert (Hs : forallb is_scalar sent = true).
  { destruct (@TruncateFacts.truncate_result t COMPREHEND_MAX_BYTES sent)
      as [Hs _]; [unfold COMPREHEND_MAX_BYTES; lia | assumption | assumption]. }
  step_monad. rewrite (TruncateFacts.encode_scalar _ Hs).
  cbv zeta. unfold truncation_warning, classifier_failure_line,
    storage_failure_line, classified_line, record_for.
  destruct (len (Utf8.enc sent) <? len t); step_world;
  (destruct (detect_sentiment env (length (comprehend_calls w)) sent
                              DEFAULT_LANGUAGE_CODE) as [e | resp];
   [ destruct (is_ClientError e); step_monad; step_world;
     rewrite <- ?app_assoc, ?app_nil_r; reflexivity
   | step_world;
     destruct (add_relativedelta (utcnow env (clock_reads w))
                                 (relativedelta_months 12)) as [e | expires];
     [ step_world; rewrite <- ?app_assoc, ?app_nil_r; reflexivity
     | step_world;
       match goal with
       | |- context [put_item env ?n ?tbl ?it] =>
         destruct (put_item env n tbl it) as [e |]
       end;
       [ destruct (is_ClientError e); step_monad; step_world;
         rewrite <- ?app_assoc, ?app_nil_r; reflexivity
       | step_world; rewrite <- ?app_assoc, ?app_nil_r; reflexivity ] ] ]).
Qed.

End Stages.

Section Outcomes.

Variable pyfloat : Type.
Variable env : Env pyfloat.

Lemma validated_eq message_body (w : World pyfloat) d raw :
  validated env message_body d raw ->
  process_survey_message env message_body w
  = try_except (classify_and_store env (field_id d) (field_customer d)
                                   (strip raw))
               (outer_except env (field_id d)) w.
Proof.
  intros (Ej & Et & Hi & Hc & Hs). now apply process_valid_eq.
Qed.

End Outcomes.


(** X6. A validated text with a lone surrogate cannot be encoded: the
    pipeline raises [UnicodeEncodeError], logs it as a validation error, and
    reads no clock, sends nothing and writes nothing. *)
Theorem lone_surrogate_is_a_validation_failure
    (pyfloat : Type) (env : Env pyfloat) message_body (w : World pyfloat) d raw :
  validated env message_body d raw ->
  forallb is_scalar (strip raw) = false ->
  is_ValueError UnicodeEncodeError = true /\
  process_survey_message env message_body w
  = (inl UnicodeEncodeError,
     log_append w [ErrorValidation (id_or_unknown env (field_id d))
                                   UnicodeEncodeError]).
Proof.
  intros Hv Hsur. split; [reflexivity|].
  rewrite (@validated_eq pyfloat env _ w _ _ Hv).
  unfold try_except, classify_and_store, truncate_text_for_comprehend,
    Utf8.encode.
  rewrite Hsur. cbv [bind lift]. rewrite outer_except_line. reflexivity.
Qed.

(** X7. When the classifier raises [e] for a validated message, the pipeline
    raises the same [e]: the request was sent once, no clock was read and
    nothing was written; the failure is logged twice, by the clauses around
    the call and by the closing ones. *)
Theorem classifier_failure_propagates
    (pyfloat : Type) (env : Env pyfloat) message_body (w : World pyfloat)
    d raw sent e :
  validated env message_body d raw ->
  truncate_text_for_comprehend (strip raw) COMPREHEND_MAX_BYTES = inr sent ->
  detect_sentiment env (length (comprehend_calls w)) sent
                   DEFAULT_LANGUAGE_CODE = inl e ->
  process_survey_message env message_body w
  = (inl e,
     mkWorld (clock_reads w)
             (comprehend_calls w ++ [(sent, DEFAULT_LANGUAGE_CODE)])
             (put_item_calls w)
             (log w ++ truncation_warning env (field_id d) (strip raw) sent
                    ++ [classifier_failure_line env (field_id d) e;
                        pipeline_failure_line env (field_id d) e])).
Proof.
  intros Hv Et Ed. rewrite (@validated_eq pyfloat env _ w _ _ Hv).
  unfold try_except. rewrite (@classify_and_store_eq pyfloat env _ _ _ w _ Et).
  cbv zeta. rewrite Ed, outer_except_line.
  unfold log_append. cbn [clock_reads comprehend_calls put_item_calls log].
  rewrite <- !app_assoc. reflexivity.
Qed.

(** X8. A clock reading in the year 9999 cannot be advanced by twelve
    months: the pipeline raises [ValueError] after the classifier has
    answered, logs it as a validation error and writes nothing. *)
Theorem expiry_overflow_fails_after_classification
    (pyfloat : Type) (env : Env pyfloat) message_body (w : World pyfloat)
    d raw sent resp :
  validated env message_body d raw ->
  truncate_text_for_comprehend (strip raw) COMPREHEND_MAX_BYTES = inr sent ->
  detect_sentiment env (length (comprehend_calls w)) sent
                   DEFAULT_LANGUAGE_CODE = inr resp ->
  9999 <= year (utcnow env (clock_reads w)) ->
  exists msg,
    process_survey_message env message_body w
    = (inl (ValueError msg),
       mkWorld (S (clock_reads w))
               (comprehend_calls w ++ [(sent, DEFAULT_LANGUAGE_CODE)])
               (put_item_calls w)
               (log w ++ truncation_warning env (field_id d) (strip raw) sent
                      ++ [classified_line env (field_id d) resp;
                          ErrorValidation (id_or_unknown env (field_id d))
                                          (ValueError msg)])).
Proof.
  intros Hv Et Ed Hy. rewrite (@validated_eq pyfloat env _ w _ _ Hv).
  unfold try_except. rewrite (@classify_and_store_eq pyfloat env _ _ _ w _ Et).
  cbv zeta. rewrite Ed.
  assert (Ea : exists msg,
    add_relativedelta (utcnow env (clock_reads w)) (relativedelta_months 12)
    = inl (ValueError msg)).
  { rewrite DateFacts.relativedelta_12. unfold add_relativedelta.
    cbn [rd_years rd_months]. change (0 =? 0) with true. cbv beta iota.
    destruct (Z.leb_spec (year (utcnow env (clock_reads w)) + 1) 9999);
      [lia|].
    rewrite andb_false_r. eexists. reflexivity. }
  destruct Ea as [msg ->]. exists msg.
  rewrite outer_except_line.
  unfold log_append, pipeline_failure_line.
  cbn [clock_reads comprehend_calls put_item_calls log is_JSONDecodeError
       is_ValueError].
  rewrite <- !app_assoc. reflexivity.
Qed.

(** X9. When the table refuses the write with [e], the pipeline raises the
    same [e]: the request was sent once, the clock read twice and the record
    handed to the table once; the failure is logged twice. *)
Theorem storage_failure_propagates
    (pyfloat : Type) (env : Env pyfloat) message_body (w : World pyfloat)
    d raw sent resp expires e :
  validated env message_body d raw ->
  truncate_text_for_comprehend (strip raw) COMPREHEND_MAX_BYTES = inr sent ->
  detect_sentiment env (length (comprehend_calls w)) sent
                   DEFAULT_LANGUAGE_CODE = inr resp ->
  add_relativedelta (utcnow env (clock_reads w)) (relativedelta_months 12)
  = inr expires ->
  put_item env (length (put_item_calls w)) (TABLE_NAME env)
           (record_for env (field_id d) (field_customer d) (strip raw) resp
                       (clock_reads w) expires) = Some e ->
  process_survey_message env message_body w
  = (inl e,
     mkWorld (S (S (clock_reads w)))
             (comprehend_calls w ++ [(sent, DEFAULT_LANGUAGE_CODE)])
             (put_item_calls w
              ++ [(TABLE_NAME env,
                   record_for env (field_id d) (field_customer d) (strip raw)
                              resp (clock_reads w) expires)])
             (log w ++ truncation_warning env (field_id d) (strip raw) sent
                    ++ [classified_line env (field_id d) resp;
                        storage_failure_line env (field_id d) e;
                        pipeline_failure_line env (field_id d) e])).
Proof.
  intros Hv Et Ed Ea Ep. rewrite (@validated_eq pyfloat env _ w _ _ Hv).
  unfold try_except. rewrite (@classify_and_store_eq pyfloat env _ _ _ w _ Et).
  cbv zeta. rewrite Ed, Ea, Ep, outer_except_line.
  unfold log_append. cbn [clock_reads comprehend_calls put_item_calls log].
  rewrite <- !app_assoc. reflexivity.
Qed.

(** X10. When every stage succeeds the pipeline returns the survey id, the
    label of the classifier and the score filed under that label (none when
    the scores have no such key); the request was sent once, the clock read
    twice and the record written once, with [id] and [customerId] turned into
    strings. *)
Theorem successful_run_writes_one_record
    (pyfloat : Type) (env : Env pyfloat) message_body (w : World pyfloat)
    d raw sent resp expires :
  validated env message_body d raw ->
  truncate_text_for_comprehend (strip raw) COMPREHEND_MAX_BYTES = inr sent ->
  detect_sentiment env (length (comprehend_calls w)) sent
                   DEFAULT_LANGUAGE_CODE = inr resp ->
  add_relativedelta (utcnow env (clock_reads w)) (relativedelta_months 12)
  = inr expires ->
  put_item env (length (put_item_calls w)) (TABLE_NAME env)
           (record_for env (field_id d) (field_customer d) (strip raw) resp
                       (clock_reads w) expires) = None ->
  let item := record_for env (field_id d) (field_customer d) (strip raw) resp
                         (clock_reads w) expires in
  process_survey_message env message_body w
  = (inr (mkResult (field_id d) (Sentiment resp)
                   (dict_get (Sentiment resp) (SentimentScore resp))),
     mkWorld (S (S (clock_reads w)))
             (comprehend_calls w ++ [(sent, DEFAULT_LANGUAGE_CODE)])
             (put_item_calls w ++ [(TABLE_NAME env, item)])
             (log w ++ truncation_warning env (field_id d) (strip raw) sent
                    ++ [classified_line env (field_id d) resp;
                        InfoStored (py_str env (field_id d))
                                   (py_str env (field_customer d))
                                   (Sentiment resp)])) /\
  dict_get (lit "id") item = Some (AttrS (py_str env (field_id d))) /\
  dict_get (lit "customerId") item
  = Some (AttrS (py_str env (field_customer d))) /\
  dict_get (lit "sentiment") item = Some (AttrS (Sentiment resp)).
Proof.
  intros Hv Et Ed Ea Ep item. split; [| repeat split].
  rewrite (@validated_eq pyfloat env _ w _ _ Hv).
  unfold try_except. rewrite (@classify_and_store_eq pyfloat env _ _ _ w _ Et).
  cbv zeta. rewrite Ed, Ea, Ep.
  rewrite <- !app_assoc. reflexivity.
Qed.

(** ** What a message and a batch may do to the world *)

Module StripTextFacts.

Lemma lstrip_suffix s : exists ws, s = ws ++ lstrip s.
Proof.
  induction s as [| c s IH]; [exists []; reflexivity|].
  cbn [lstrip]. destruct (isspace c).
  - destruct IH as [ws E]. exists (c :: ws). cbn [app]. now rewrite <- E.
  - exists []. reflexivity.
Qed.

Lemma lstrip_head s c r : lstrip s = c :: r -> isspace c = false.
Proof.
  induction s as [| a s IH]; [discriminate|].
  cbn [lstrip]. destruct (isspace a) eqn:E; [assumption|].
  intros H. injection H as <- _. assumption.
Qed.

(** What [strip] returns is empty or starts and ends with a character that
    is not whitespace. *)
Lemma strip_trimmed s : strip s <> [] -> trimmed (strip s) = true.
Proof.
  unfold strip, rstrip. intros Hne.
  destruct (lstrip_suffix (rev (lstrip s))) as [ws Hws].
  remember (lstrip (rev (lstrip s))) as b eqn:Eb.
  assert (Ha : lstrip s = rev b ++ rev ws).
  { rewrite <- (rev_involutive (lstrip s)), Hws, rev_app_distr. reflexivity. }
  destruct b as [| y b']; [contradiction Hne; reflexivity|].
  symmetry in Eb. pose proof (lstrip_head _ Eb) as Hy.
  cbn [rev] in *.
  assert (Hlast : last (rev b' ++ [y]) 0 = y) by apply last_last.
  destruct (rev b' ++ [y]) as [| x xs] eqn:Ex;
    [destruct (rev b'); discriminate|].
  unfold trimmed. rewrite Hlast, Hy.
  cbn [app] in Ha. rewrite (lstrip_head _ Ha). reflexivity.
Qed.

End StripTextFacts.

Section Effects.

Variable pyfloat : Type.
Variable env : Env pyfloat.

Lemma effects_only_logged (w w' : World pyfloat) :
  only_logged w w' -> effects env w w' [] [] 0.
Proof.
  intros [evs ->]. unfold effects, log_append.
  cbn [clock_reads comprehend_calls put_item_calls log forallb length].
  rewrite !app_nil_r, Nat.add_0_r.
  repeat split; try reflexivity; try lia. exists evs. reflexivity.
Qed.

Lemma effects_trans (w1 w2 w3 : World pyfloat) cs1 ps1 k1 cs2 ps2 k2 :
  effects env w1 w2 cs1 ps1 k1 -> effects env w2 w3 cs2 ps2 k2 ->
  effects env w1 w3 (cs1 ++ cs2) (ps1 ++ ps2) (k1 + k2).
Proof.
  intros (Hc1 & Hp1 & Hk1 & [l1 Hl1] & Hb1 & Hs1 & Hn1)
         (Hc2 & Hp2 & Hk2 & [l2 Hl2] & Hb2 & Hs2 & Hn2).
  unfold effects. rewrite Hc2, Hc1, Hp2, Hp1, Hk2, Hk1, Hl2, Hl1.
  rewrite <- !app_assoc, !forallb_app, Hb1, Hb2, Hs1, Hs2, !length_app.
  repeat split; try reflexivity; try lia. exists (l1 ++ l2). reflexivity.
Qed.

Lemma within_budget_sent t sent :
  truncate_text_for_comprehend t COMPREHEND_MAX_BYTES = inr sent ->
  within_budget (sent, DEFAULT_LANGUAGE_CODE) = true.
Proof.
  intros Et.
  destruct (@TruncateFacts.truncate_result t COMPREHEND_MAX_BYTES sent)
    as [Hs Hl]; [unfold COMPREHEND_MAX_BYTES; lia | assumption |].
  unfold within_budget. cbn [fst snd].
  rewrite Hs, pystr_eqb_refl.
  destruct (Z.leb_spec (len (Utf8.enc sent)) COMPREHEND_MAX_BYTES);
    [reflexivity | lia].
Qed.

Lemma well_stored_record sid cid t resp reads expires :
  t <> [] -> trimmed t = true ->
  well_stored env (TABLE_NAME env, record_for env sid cid t resp reads expires)
  = true.
Proof.
  intros _ Ht. unfold well_stored, record_for. cbn [fst snd].
  rewrite pystr_eqb_refl, build_item_surveyText, Ht. reflexivity.
Qed.

(** The effects of [classify_and_store] on a trimmed text. *)
Lemma classify_and_store_effects sid cid t (w : World pyfloat) :
  t <> [] -> trimmed t = true ->
  exists cs ps k,
    effects env w (snd (classify_and_store env sid cid t w)) cs ps k /\
    (length cs <= 1)%nat /\
    (forall r, fst (classify_and_store env sid cid t w) = inr r ->
               length ps = 1%nat).
Proof.
  intros Hne Htr.
  destruct (truncate_text_for_comprehend t COMPREHEND_MAX_BYTES)
    as [e | sent] eqn:Et.
  { destruct (classify_and_store_spec env sid cid t w)
      as (res & w' & E & H).
    rewrite Et in H. destruct H as [-> ->]. rewrite E. cbn [fst snd].
    exists [], [], O. split; [apply effects_only_logged, only_logged_refl|].
    split; [cbn [length]; lia | discriminate]. }
  rewrite (@classify_and_store_eq pyfloat env sid cid t w sent Et).
  cbv zeta.
  pose proof (@within_budget_sent t sent Et) as Hb.
  destruct (detect_sentiment env _ sent DEFAULT_LANGUAGE_CODE) as [e | resp].
  { cbn [fst snd]. exists [(sent, DEFAULT_LANGUAGE_CODE)], [], O.
    split; [| split; [cbn [length]; lia | discriminate]].
    unfold effects.
    cbn [clock_reads comprehend_calls put_item_calls log forallb length].
    rewrite Hb, app_nil_r, Nat.add_0_r.
    repeat split; try reflexivity; try lia.
    eexists. rewrite <- app_assoc. reflexivity. }
  destruct (add_relativedelta _ _) as [e | expires].
  { cbn [fst snd]. exists [(sent, DEFAULT_LANGUAGE_CODE)], [], 1%nat.
    split; [| split; [cbn [length]; lia | discriminate]].
    unfold effects.
    cbn [clock_reads comprehend_calls put_item_calls log forallb length].
    rewrite Hb, app_nil_r.
    repeat split; try reflexivity; try lia.
    eexists. rewrite <- app_assoc. reflexivity. }
  pose proof (@well_stored_record sid cid t resp (clock_reads w) expires
                                  Hne Htr) as Hw.
  assert (He : forall res ls,
    let w' := mkWorld (S (S (clock_reads w)))
                (comprehend_calls w ++ [(sent, DEFAULT_LANGUAGE_CODE)])
                (put_item_calls w
                 ++ [(TABLE_NAME env,
                      record_for env sid cid t resp (clock_reads w) expires)])
                ((log w ++ truncation_warning env sid t sent) ++ ls) in
    exists cs ps k,
      effects env w (snd (res : exn + SurveyResult pyfloat, w')) cs ps k /\
      (length cs <= 1)%nat /\
      (forall r, fst (res, w') = inr r -> length ps = 1%nat)).
  { intros res ls w'. cbn [fst snd].
    exists [(sent, DEFAULT_LANGUAGE_CODE)],
           [(TABLE_NAME env,
             record_for env sid cid t resp (clock_reads w) expires)], 2%nat.
    split; [| split; [cbn [length]; lia | reflexivity]].
    unfold effects, w'.
    cbn [clock_reads comprehend_calls put_item_calls log forallb length].
    rewrite Hb, Hw.
    repeat split; try reflexivity; try lia.
    eexists. rewrite <- app_assoc. reflexivity. }
  destruct (put_item env _ (TABLE_NAME env) _) as [e |]; apply He.
Qed.

(** The effects of one run of the pipeline, however it ends. *)
Lemma process_effects message_body (w : World pyfloat) :
  exists cs ps k,
    effects env w (snd (process_survey_message env message_body w)) cs ps k /\
    (length cs <= 1)%nat /\
    (forall r, fst (process_survey_message env message_body w) = inr r ->
               length ps = 1%nat).
Proof.
  destruct (process_spec env message_body w) as (res & w' & E & H).
  rewrite E. cbn [fst snd]. revert H.
  assert (Hrej : res = inl AttributeError /\ only_logged w w' ->
    exists cs ps k,
      effects env w w' cs ps k /\ (length cs <= 1)%nat /\
      (forall r, res = inr r -> length ps = 1%nat)).
  { intros [-> Hl]. exists [], [], O.
    split; [now apply effects_only_logged|].
    split; [cbn [length]; lia | discriminate]. }
  assert (Hrej' : forall e, res = inl e /\ only_logged w w' ->
    exists cs ps k,
      effects env w w' cs ps k /\ (length cs <= 1)%nat /\
      (forall r, res = inr r -> length ps = 1%nat)).
  { intros e [-> Hl]. exists [], [], O.
    split; [now apply effects_only_logged|].
    split; [cbn [length]; lia | discriminate]. }
  destruct (json_loads env message_body) as [v |]; [| apply Hrej'].
  destruct v as [| b | n | f | s | items | d]; try exact Hrej.
  destruct (field_text d) as [| | | | raw | |]; try exact Hrej.
  destruct (truthy env (field_id d)); cbn [negb]; [| apply Hrej'].
  destruct (truthy env (field_customer d)); cbn [negb]; [| apply Hrej'].
  destruct (strip raw) as [| c s] eqn:Es; [apply Hrej'|].
  intros (w1 & Ec & Hl & Hr).
  assert (Hne : strip raw <> []) by (rewrite Es; discriminate).
  pose proof (@StripTextFacts.strip_trimmed raw Hne) as Htr.
  rewrite Es in Hne, Htr.
  destruct (@classify_and_store_effects (field_id d) (field_customer d)
                                        (c :: s) w Hne Htr)
    as (cs & ps & k & He & Hcs & Hsucc).
  rewrite Ec in He, Hsucc. cbn [fst snd] in He, Hsucc.
  exists cs, ps, k. split; [| split; [assumption | assumption]].
  pose proof (@effects_trans _ _ _ _ _ _ _ _ _ He (@effects_only_logged _ _ Hl)) as Ht.
  rewrite !app_nil_r, Nat.add_0_r in Ht. exact Ht.
Qed.

(** The effects of one iteration of the loop. *)
Lemma handle_record_effects i record p f (w : World pyfloat) :
  exists cs ps k,
    effects env w (snd (handle_record env i record (p, f) w)) cs ps k /\
    (length cs <= 1)%nat /\
    (entry_succeeds env record w = true -> length ps = 1%nat).
Proof.
  unfold handle_record, entry_succeeds.
  destruct (body record) as [[| c s] |].
  - exists [], [], O. split; [| split; [cbn [length]; lia | discriminate]].
    apply effects_only_logged. cbv [bind try_except ret logger].
    cbn [snd]. apply only_logged_append.
  - destruct (process_effects (c :: s) w)
      as (cs & ps & k & He & Hcs & Hsucc).
    cbv [bind try_except ret logger].
    destruct (process_survey_message env (c :: s) w) as [[e | r] w1];
      cbn [fst snd] in *.
    + exists cs, ps, k. split; [| split; [assumption | discriminate]].
      assert (Hl : only_logged w1
        (snd (if is_ValueError e
              then (inr (p, f + 1) : exn + Z * Z,
                    log_append w1 [WarnRecordValidation
                                     (record_id_of i record) e])
              else if is_ClientError e
              then (inr (p, f + 1),
                    log_append w1 [ErrorRecordAWS (record_id_of i record)
                                                  (error_code_of e) e])
              else (inr (p, f + 1),
                    log_append w1 [ErrorRecordUnexpected
                                     (record_id_of i record) e])))).
      { destruct (is_ValueError e); [| destruct (is_ClientError e)];
          apply only_logged_append. }
      pose proof (@effects_trans _ _ _ _ _ _ _ _ _ He (@effects_only_logged _ _ Hl)) as Ht.
      rewrite !app_nil_r, Nat.add_0_r in Ht.
      destruct (is_ValueError e); [| destruct (is_ClientError e)]; exact Ht.
    + exists cs, ps, k. split; [assumption|].
      split; [assumption | intros _; apply (Hsucc r); reflexivity].
  - exists [], [], O. split; [| split; [cbn [length]; lia | discriminate]].
    apply effects_only_logged. cbv [bind try_except ret logger].
    cbn [snd]. apply only_logged_append.
Qed.

(** The effects of the loop over a batch. *)
Lemma main_loop_effects records : forall i p f (w : World pyfloat),
  exists cs ps k,
    effects env w (snd (main_loop env i records (p, f) w)) cs ps k /\
    (length cs <= length records)%nat /\
    successes (entry_outcomes env i records w) <= len ps.
Proof.
  induction records as [| r rs IH]; intros i p f w.
  - exists [], [], O. cbn [main_loop entry_outcomes]. unfold ret. cbn [snd].
    split; [apply effects_only_logged, only_logged_refl|].
    split; [cbn [length]; lia | reflexivity].
  - cbn [main_loop entry_outcomes].
    destruct (handle_record_spec env i r p f w) as (w1 & E & Hw).
    destruct (handle_record_effects i r p f w)
      as (cs1 & ps1 & k1 & He1 & Hc1 & Hs1).
    rewrite E in He1. cbn [snd] in He1.
    unfold bind at 1. rewrite E, (Hw 0 0).
    match goal with
    | |- context [main_loop env (S i) rs ?c w1] =>
      destruct c as [p' f']
    end.
    destruct (IH (S i) p' f' w1) as (cs2 & ps2 & k2 & He2 & Hc2 & Hs2).
    exists (cs1 ++ cs2), (ps1 ++ ps2), (k1 + k2)%nat.
    split; [exact (@effects_trans _ _ _ _ _ _ _ _ _ He1 He2)|].
    rewrite !length_app. split; [cbn [length]; lia|].
    rewrite successes_cons. unfold len in *. rewrite length_app.
    destruct (entry_succeeds env r w).
    + rewrite (Hs1 eq_refl). lia.
    + lia.
Qed.

(** The effects of an invocation of [main]. *)
Lemma main_effects event (w : World pyfloat) :
  exists cs ps k,
    effects env w (snd (main env event w)) cs ps k /\
    (length cs <= length (event_records event))%nat /\
    successes (batch_outcomes env event w) <= len ps.
Proof.
  unfold main, batch_outcomes. fold (event_records event).
  cbv [bind logger].
  set (w0 := log_append w [InfoBatchStart (len (event_records event))]).
  destruct (main_loop_spec env (event_records event) 0 0 0 w0) as (w1 & E).
  destruct (main_loop_effects (event_records event) 0 0 0 w0)
    as (cs & ps & k & He & Hc & Hs).
  rewrite E in He |- *. cbn [snd] in He. cbv [ret]. cbn [snd].
  exists cs, ps, k. split; [| split; assumption].
  match goal with
  | |- effects env w (log_append w1 ?l) cs ps k =>
    pose proof (@effects_trans _ _ _ _ _ _ _ _ _
                  (@effects_only_logged w w0 (only_logged_append w _))
                  (@effects_trans _ _ _ _ _ _ _ _ _ He
                     (@effects_only_logged _ _ (only_logged_append w1 l))))
      as Ht
  end.
  cbn [app Nat.add] in Ht. rewrite !app_nil_r, Nat.add_0_r in Ht.
  exact Ht.
Qed.

End Effects.

(** X11. Whatever the body and however the run ends, one message makes at
    most one classifier request and at most one write, a write only after a
    request and two clock readings, and no clock reading without a request;
    every request is within the budget and every write well stored; a run
    that returns has written exactly once. What was there before is kept. *)
Theorem message_call_discipline
    (pyfloat : Type) (env : Env pyfloat) message_body (w : World pyfloat) :
  exists cs ps k,
    effects env w (snd (process_survey_message env message_body w)) cs ps k /\
    (length cs <= 1)%nat /\
    (forall r, fst (process_survey_message env message_body w) = inr r ->
               length ps = 1%nat).
Proof. apply process_effects. Qed.

(** X12. Every request [main] sends to the classifier, for every batch,
    carries well-formed text of at most 5000 octets and the language code
    [en]; there is at most one request per entry, and earlier requests are
    kept. *)
Theorem batch_requests_fit_the_budget
    (pyfloat : Type) (env : Env pyfloat) (event : Event) (w : World pyfloat) :
  exists cs,
    comprehend_calls (snd (main env event w)) = comprehend_calls w ++ cs /\
    forallb within_budget cs = true /\
    len cs <= len (event_records event).
Proof.
  destruct (main_effects env event w)
    as (cs & ps & k & (Hc & _ & _ & _ & Hb & _) & Hn & _).
  exists cs. split; [assumption|]. split; [assumption|].
  unfold len. lia.
Qed.

(** X13. Every record [main] hands to the table, for every batch, goes to
    the configured table and carries a [surveyText] that is not empty and
    neither starts nor ends with whitespace; earlier writes are kept. *)
Theorem batch_writes_are_well_stored
    (pyfloat : Type) (env : Env pyfloat) (event : Event) (w : World pyfloat) :
  exists ps,
    put_item_calls (snd (main env event w)) = put_item_calls w ++ ps /\
    forallb (well_stored env) ps = true.
Proof.
  destruct (main_effects env event w)
    as (cs & ps & k & (_ & Hp & _ & _ & _ & Hs & _) & _).
  exists ps. split; assumption.
Qed.

(** X14. Over a batch of N entries: the entries that succeed are at most
    the records handed to the table, which are at most the requests sent to
    the classifier, which are at most N; the clock is read twice for each
    write and at most twice for each request. *)
Theorem batch_accounting
    (pyfloat : Type) (env : Env pyfloat) (event : Event) (w : World pyfloat) :
  exists cs ps k,
    comprehend_calls (snd (main env event w)) = comprehend_calls w ++ cs /\
    put_item_calls (snd (main env event w)) = put_item_calls w ++ ps /\
    clock_reads (snd (main env event w)) = (clock_reads w + k)%nat /\
    successes (batch_outcomes env event w) <= len ps /\
    len ps <= len cs /\
    len cs <= len (event_records event) /\
    (2 * length ps <= k <= 2 * length cs)%nat.
Proof.
  destruct (main_effects env event w)
    as (cs & ps & k & (Hc & Hp & Hk & _ & _ & _ & Hn) & Hl & Hs).
  exists cs, ps, k. unfold len in *.
  repeat split; try assumption; lia.
Qed.

(** X15. An event without a [Records] key, or with an empty list, is an
    empty batch: [main] returns status 200 with three zero counts and only
    logs its two lines. *)
Theorem batch_without_records
    (pyfloat : Type) (env : Env pyfloat) (event : Event) (w : World pyfloat) :
  Records event = None \/ Records event = Some [] ->
  main env event w
  = (inr (mkHttp 200 (json_dumps_counts 0 0 0)),
     log_append w [InfoBatchStart 0; InfoSummary 0 0 0]).
Proof.
  intros [E | E]; unfold main; rewrite E;
    cbv [bind logger ret main_loop log_append];
    cbn [clock_reads comprehend_calls put_item_calls log length];
    rewrite <- app_assoc; reflexivity.
Qed.


(** ** The truncation warning *)

(** X17. The truncation warning is never logged for a text that was sent
    whole: the log of a run on a validated message is the earlier log, the
    warning under its guard, then lines that are not truncation warnings, and
    the guard fails whenever the text sent is the validated text. *)
Theorem truncation_warning_only_when_cut
    (pyfloat : Type) (env : Env pyfloat) message_body (w : World pyfloat)
    d raw sent :
  validated env message_body d raw ->
  truncate_text_for_comprehend (strip raw) COMPREHEND_MAX_BYTES = inr sent ->
  (exists rest,
     log (snd (process_survey_message env message_body w))
     = log w ++ truncation_warning env (field_id d) (strip raw) sent ++ rest /\
     existsb (@is_truncation_warning pyfloat) rest = false) /\
  (sent = strip raw ->
   truncation_warning env (field_id d) (strip raw) sent = []).
Proof.
  intros (Ej & Ef & Hi & Hc & Hs) Et. split.
  - destruct (@process_valid_warning pyfloat env message_body w d raw sent
                Ej Ef Hi Hc Hs Et) as (rest & Hlog & Hno).
    exists rest. split; assumption.
  - intros ->. unfold truncation_warning.
    pose proof (TruncateFacts.enc_length (strip raw)) as Hl.
    destruct (Z.ltb_spec (len (Utf8.enc (strip raw))) (len (strip raw)));
      [unfold len in *; lia | reflexivity].
Qed.

(** X18. For a validated text of ASCII characters the classifier receives
    its first 5000 characters and the truncation warning is logged exactly
    when the text has more than 5000, with the two lengths. *)
Theorem ascii_truncation_is_logged
    (pyfloat : Type) (env : Env pyfloat) message_body (w : World pyfloat)
    d raw :
  validated env message_body d raw ->
  forallb is_ascii (strip raw) = true ->
  comprehend_calls (snd (process_survey_message env message_body w))
  = comprehend_calls w
    ++ [(firstn (Z.to_nat COMPREHEND_MAX_BYTES) (strip raw),
         DEFAULT_LANGUAGE_CODE)] /\
  exists rest,
    log (snd (process_survey_message env message_body w))
    = log w
      ++ (if COMPREHEND_MAX_BYTES <? len (strip raw)
          then [WarnTruncated (len (strip raw)) COMPREHEND_MAX_BYTES
                              (py_str env (field_id d))]
          else [])
      ++ rest /\
    existsb (@is_truncation_warning pyfloat) rest = false.
Proof.
  intros (Ej & Ef & Hi & Hc & Hs) Ha.
  assert (Et : truncate_text_for_comprehend (strip raw) COMPREHEND_MAX_BYTES
               = inr (firstn (Z.to_nat COMPREHEND_MAX_BYTES) (strip raw))).
  { apply CutFacts.truncate_ascii;
      [assumption | unfold COMPREHEND_MAX_BYTES; lia]. }
  split.
  - apply (@process_valid_classifies pyfloat env message_body w d raw _
             Ej Ef Hi Hc Hs Et).
  - destruct (@process_valid_warning pyfloat env message_body w d raw _
                Ej Ef Hi Hc Hs Et) as (rest & Hlog & Hno).
    exists rest. split; [| assumption].
    rewrite Hlog. do 2 f_equal.
    assert (Hf : forallb is_ascii
                   (firstn (Z.to_nat COMPREHEND_MAX_BYTES) (strip raw)) = true)
      by (apply TruncateFacts.forallb_firstn; assumption).
    rewrite (CutFacts.enc_ascii _ Hf).
    unfold len, COMPREHEND_MAX_BYTES in *.
    destruct (Z.ltb_spec 5000 (Z.of_nat (length (strip raw)))) as [Hlt | Hge].
    + rewrite firstn_length_le by lia.
      destruct (Z.ltb_spec (Z.of_nat (Z.to_nat 5000))
                           (Z.of_nat (length (strip raw)))); [| lia].
      rewrite Z2Nat.id by lia. reflexivity.
    + rewrite firstn_all2 by lia.
      destruct (Z.ltb_spec (Z.of_nat (length (strip raw)))
                           (Z.of_nat (length (strip raw)))); [lia|].
      reflexivity.
Qed.

(** ** [calculate_expires_at] in seconds *)

Module ExpiryFacts.
Import DateFacts.

(** Evaluates the tests and table lookups of a literal month. *)
Ltac eval_literal_month :=
  unfold days_in_month, days_before_month, crosses_leap_day in *;
  cbn [year month day hour minute second microsecond] in *;
  repeat match goal with
  | |- context [nth ?n ?l ?d] =>
    let v := eval vm_compute in (nth n l d) in change (nth n l d) with v
  | |- context [Z.eqb ?a ?b] =>
    is_ground a; is_ground b;
    let v := eval vm_compute in (Z.eqb a b) in change (Z.eqb a b) with v
  | |- context [Z.ltb ?a ?b] =>
    is_ground a; is_ground b;
    let v := eval vm_compute in (Z.ltb a b) in change (Z.ltb a b) with v
  | |- context [Z.leb ?a ?b] =>
    is_ground a; is_ground b;
    let v := eval vm_compute in (Z.leb a b) in change (Z.leb a b) with v
  end;
  cbn [andb negb].

(** Twelve months later is 366 days later when a 29 February lies in
    between and 365 days later otherwise. *)
Lemma add_12_months_exact_days now later :
  valid_datetime now = true ->
  add_relativedelta now (relativedelta_months 12) = inr later ->
  epoch_seconds later
  = epoch_seconds now
    + 86400 * (if crosses_leap_day now then 366 else 365) /\
  microsecond later = microsecond now.
Proof.
  intros Hv Ea. rewrite (add_12_months _ Ea).
  split; [| reflexivity].
  unfold valid_datetime in Hv.
  repeat (apply andb_prop in Hv as [Hv ?]).
  repeat match goal with
         | H : (_ <=? _) = true |- _ => apply Z.leb_le in H
         | H : (_ <? _) = true |- _ => apply Z.ltb_lt in H
         end.
  destruct now as [y m d h mi s us].
  cbn [year month day hour minute second microsecond] in *.
  unfold epoch_seconds, ymd2ord.
  cbn [year month day hour minute second microsecond].
  pose proof (year_length y) as Hy.
  assert (Hm : 1 <= m <= 12) by lia.
  apply month_cases in Hm.
  unfold crosses_leap_day.
  cbn [year month day hour minute second microsecond].
  assert (H29 : exists is29, (d =? 29) = is29 /\
                             (if is29 then d = 29 else d <> 29)).
  { exists (d =? 29). split; [reflexivity|].
    destruct (Z.eqb_spec d 29); assumption. }
  destruct H29 as (is29 & -> & H29).
  match goal with Hd : d <= days_in_month y m |- _ => revert Hd end.
  destruct (isleap y) eqn:Ely.
  - pose proof (isleap_next _ Ely) as Eln.
    repeat (destruct Hm as [-> | Hm]); try subst m; eval_literal_month;
      rewrite ?Ely, ?Eln; cbn [andb negb]; intros Hd;
      destruct is29; cbn [negb]; lia.
  - destruct (isleap (y + 1)) eqn:Eln;
    repeat (destruct Hm as [-> | Hm]); try subst m; eval_literal_month;
      rewrite ?Ely, ?Eln; cbn [andb negb]; intros Hd; lia.
Qed.

End ExpiryFacts.

(** X19. For a valid clock reading from 1970 to 2253 (where the float of
    [timestamp] keeps the whole seconds), [calculate_expires_at] reads the
    clock once and returns the whole seconds of the reading plus 366 days of
    seconds when a 29 February lies in the twelve months ahead, and plus 365
    days of seconds otherwise. *)
Theorem expires_at_is_a_year_of_seconds_ahead
    (pyfloat : Type) (env : Env pyfloat) (w : World pyfloat) :
  valid_datetime (utcnow env (clock_reads w)) = true ->
  1970 <= year (utcnow env (clock_reads w)) <= 2253 ->
  calculate_expires_at env w
  = (inr (epoch_seconds (utcnow env (clock_reads w))
          + 86400 * (if crosses_leap_day (utcnow env (clock_reads w))
                     then 366 else 365)),
     mkWorld (S (clock_reads w)) (comprehend_calls w) (put_item_calls w)
             (log w)).
Proof.
  intros Hv Hy.
  destruct (@DateFacts.add_12_months_defined (utcnow env (clock_reads w)) Hv)
    as [later Ea]; [lia|].
  destruct (@ExpiryFacts.add_12_months_exact_days _ later Hv Ea) as [Hs Hus].
  unfold calculate_expires_at.
  cbv [bind lift ret datetime_now]. rewrite Ea. do 2 f_equal.
  rewrite <- Hs. unfold timestamp_int, epoch_micros.
  fold (epoch_seconds later).
  pose proof (DateFacts.add_12_months _ Ea) as El.
  assert (Hus' : 0 <= microsecond later < 1000000).
  { rewrite Hus. unfold valid_datetime in Hv.
    repeat (apply andb_prop in Hv as [Hv ?]).
    repeat match goal with
           | H : (_ <=? _) = true |- _ => apply Z.leb_le in H
           | H : (_ <? _) = true |- _ => apply Z.ltb_lt in H
           end. lia. }
  apply DateFacts.quot_seconds; [| assumption].
  unfold valid_datetime in Hv.
  repeat (apply andb_prop in Hv as [Hv ?]).
  repeat match goal with
         | H : (_ <=? _) = true |- _ => apply Z.leb_le in H
         | H : (_ <? _) = true |- _ => apply Z.ltb_lt in H
         end.
  assert (28 <= days_in_month (year (utcnow env (clock_reads w)) + 1)
                              (month (utcnow env (clock_reads w))) <= 31)
    by (apply DateFacts.days_in_month_pos; lia).
  unfold epoch_seconds. rewrite El.
  cbn [year month day hour minute second microsecond].
  apply DateFacts.epoch_seconds_nonneg; lia.
Qed.

(** ** Concrete runs of the further properties *)

Module MoreRuns.
Import Doubles.

Lemma ok_validated clock detect put :
  validated (env clock detect put) ok_body ok_fields (lit "Great service!").
Proof.
  repeat split; try (vm_compute; reflexivity). vm_compute. discriminate.
Defined.

Lemma ok_sent :
  truncate_text_for_comprehend (strip (lit "Great service!"))
                               COMPREHEND_MAX_BYTES
  = inr (lit "Great service!").
Proof. vm_compute. reflexivity. Defined.

(** An octet string that ends with two continuation octets. *)
Lemma strip_incomplete_drops_trailing_continuations_witness :
  forallb is_octet [0x61; 0xE2; 0x82; 0xAC; 0xE2; 0x82; 0xAC] = true /\
  exists dropped,
    [0x61; 0xE2; 0x82; 0xAC; 0xE2; 0x82; 0xAC]
    = strip_incomplete [0x61; 0xE2; 0x82; 0xAC; 0xE2; 0x82; 0xAC] ++ dropped /\
    forallb Utf8.is_continuation dropped = true.
Proof.
  assert (H : forallb is_octet [0x61; 0xE2; 0x82; 0xAC; 0xE2; 0x82; 0xAC]
              = true) by reflexivity.
  split; [exact H|].
  destruct (strip_incomplete_drops_trailing_continuations _ H)
    as (dropped & E & Hc & _).
  exists dropped. split; assumption.
Defined.

(** Three euro signs cut to seven octets. *)
Lemma truncate_gives_up_at_most_four_octets_witness :
  forallb is_scalar (repeat 0x20AC 3) = true /\
  0 <= 7 < len (Utf8.enc (repeat 0x20AC 3)) /\
  exists r,
    truncate_text_for_comprehend (repeat 0x20AC 3) 7 = inr r /\
    7 - 4 <= len (Utf8.enc r) <= 7.
Proof.
  assert (H1 : forallb is_scalar (repeat 0x20AC 3) = true) by reflexivity.
  assert (H2 : 0 <= 7 < len (Utf8.enc (repeat 0x20AC 3)))
    by (vm_compute; split; [discriminate | reflexivity]).
  split; [exact H1|]. split; [exact H2|].
  exact (truncate_gives_up_at_most_four_octets (repeat 0x20AC 3) H1 H2).
Defined.

(** Five letters cut to three. *)
Lemma truncate_ascii_is_firstn_witness :
  forallb is_ascii (lit "hello") = true /\ 0 <= 3 /\
  truncate_text_for_comprehend (lit "hello") 3 = inr (lit "hel").
Proof.
  assert (H1 : forallb is_ascii (lit "hello") = true) by reflexivity.
  split; [exact H1|]. split; [lia|].
  exact (@truncate_ascii_is_firstn (lit "hello") 3 H1 ltac:(lia)).
Defined.


(** The message whose text is the letter a followed by U+D800. *)
Lemma lone_surrogate_is_a_validation_failure_witness :
  validated (env Demo.steady answers accepts) (Demo.json_text msg_surrogate)
            [ (lit "id", JStr (lit "s7")); (lit "customerId", JStr (lit "c1"));
              (lit "surveyText", JStr [0x61; 0xD800]) ]
            [0x61; 0xD800] /\
  forallb is_scalar (strip [0x61; 0xD800]) = false /\
  fst (process_survey_message (env Demo.steady answers accepts)
                              (Demo.json_text msg_surrogate) empty_world)
  = inl UnicodeEncodeError.
Proof.
  assert (H1 : validated (env Demo.steady answers accepts)
                 (Demo.json_text msg_surrogate)
                 [ (lit "id", JStr (lit "s7"));
                   (lit "customerId", JStr (lit "c1"));
                   (lit "surveyText", JStr [0x61; 0xD800]) ]
                 [0x61; 0xD800]).
  { repeat split; try (vm_compute; reflexivity). vm_compute. discriminate. }
  assert (H2 : forallb is_scalar (strip [0x61; 0xD800]) = false)
    by (vm_compute; reflexivity).
  split; [exact H1|]. split; [exact H2|].
  rewrite (proj2 (@lone_surrogate_is_a_validation_failure _ _ _ empty_world
                    _ _ H1 H2)).
  reflexivity.
Defined.

(** The sample message with a throttled classifier. *)
Lemma classifier_failure_propagates_witness :
  validated (env Demo.steady throttled accepts) ok_body ok_fields
            (lit "Great service!") /\
  throttled 0%nat (lit "Great service!") DEFAULT_LANGUAGE_CODE
  = inl (ClientError (Some (lit "ThrottlingException"))) /\
  fst (process_survey_message (env Demo.steady throttled accepts) ok_body
                              empty_world)
  = inl (ClientError (Some (lit "ThrottlingException"))) /\
  put_item_calls (snd (process_survey_message
                         (env Demo.steady throttled accepts) ok_body
                         empty_world)) = [].
Proof.
  split; [apply ok_validated|]. split; [reflexivity|].
  rewrite (@classifier_failure_propagates _
             (env Demo.steady throttled accepts) ok_body empty_world
             ok_fields (lit "Great service!") (lit "Great service!")
             (ClientError (Some (lit "ThrottlingException")))
             (ok_validated _ _ _) ok_sent eq_refl).
  split; reflexivity.
Defined.

(** The sample message with a clock in the year 9999. *)
Lemma expiry_overflow_fails_after_classification_witness :
  validated (env last_year answers accepts) ok_body ok_fields
            (lit "Great service!") /\
  9999 <= year (last_year 0) /\
  exists msg,
    fst (process_survey_message (env last_year answers accepts) ok_body
                                empty_world)
    = inl (ValueError msg).
Proof.
  split; [apply ok_validated|].
  assert (Hy : 9999 <= year (last_year 0)) by (vm_compute; discriminate).
  split; [exact Hy|].
  destruct (@expiry_overflow_fails_after_classification _
              (env last_year answers accepts) ok_body empty_world
              ok_fields (lit "Great service!") (lit "Great service!")
              Demo.positive (ok_validated _ _ _) ok_sent eq_refl Hy)
    as [msg E].
  exists msg. rewrite E. reflexivity.
Defined.

(** The sample message with a table that refuses the write. *)
Lemma storage_failure_propagates_witness :
  validated (env Demo.steady answers refuses) ok_body ok_fields
            (lit "Great service!") /\
  add_relativedelta (Demo.steady 0) (relativedelta_months 12)
  = inr (mkDatetime 2025 1 31 10 0 0 0) /\
  fst (process_survey_message (env Demo.steady answers refuses) ok_body
                              empty_world)
  = inl (ClientError (Some (lit "ResourceNotFoundException"))) /\
  length (put_item_calls (snd (process_survey_message
                                 (env Demo.steady answers refuses) ok_body
                                 empty_world))) = 1%nat.
Proof.
  split; [apply ok_validated|]. split; [reflexivity|].
  rewrite (@storage_failure_propagates _
             (env Demo.steady answers refuses) ok_body empty_world
             ok_fields (lit "Great service!") (lit "Great service!")
             Demo.positive (mkDatetime 2025 1 31 10 0 0 0)
             (ClientError (Some (lit "ResourceNotFoundException")))
             (ok_validated _ _ _) ok_sent eq_refl eq_refl eq_refl).
  split; reflexivity.
Defined.

(** The sample message when every stage succeeds. *)
Lemma successful_run_writes_one_record_witness :
  validated (env Demo.steady answers accepts) ok_body ok_fields
            (lit "Great service!") /\
  fst (process_survey_message (env Demo.steady answers accepts) ok_body
                              empty_world)
  = inr (mkResult (JStr (lit "s1")) (lit "POSITIVE") None) /\
  written_attribute (lit "id")
    (snd (process_survey_message (env Demo.steady answers accepts) ok_body
                                 empty_world))
  = [Some (AttrS (lit "s1"))].
Proof.
  split; [apply ok_validated|].
  rewrite (proj1 (@successful_run_writes_one_record _
             (env Demo.steady answers accepts) ok_body empty_world
             ok_fields (lit "Great service!") (lit "Great service!")
             Demo.positive (mkDatetime 2025 1 31 10 0 0 0)
             (ok_validated _ _ _) ok_sent eq_refl eq_refl eq_refl)).
  split; reflexivity.
Defined.

(** An event without the key. *)
Lemma batch_without_records_witness :
  Records (mkEvent None) = None /\
  fst (main (env Demo.steady answers accepts) (mkEvent None) empty_world)
  = inr (mkHttp 200 (json_dumps_counts 0 0 0)).
Proof.
  split; [reflexivity|].
  rewrite (@batch_without_records _ (env Demo.steady answers accepts)
             (mkEvent None) empty_world (or_introl eq_refl)).
  reflexivity.
Defined.

(** The sample message: sent whole, no warning. *)
Lemma truncation_warning_only_when_cut_witness :
  validated (env Demo.steady answers accepts) ok_body ok_fields
            (lit "Great service!") /\
  truncation_warning (env Demo.steady answers accepts)
                     (field_id ok_fields) (strip (lit "Great service!"))
                     (lit "Great service!") = [].
Proof.
  split; [apply ok_validated|].
  apply (proj2 (@truncation_warning_only_when_cut _
                  (env Demo.steady answers accepts) ok_body empty_world
                  ok_fields (lit "Great service!") (lit "Great service!")
                  (ok_validated _ _ _) ok_sent)).
  vm_compute. reflexivity.
Defined.

(** The sample message is ASCII and shorter than the budget. *)
Lemma ascii_truncation_is_logged_witness :
  validated (env Demo.steady answers accepts) ok_body ok_fields
            (lit "Great service!") /\
  forallb is_ascii (strip (lit "Great service!")) = true /\
  comprehend_calls (snd (process_survey_message
                           (env Demo.steady answers accepts) ok_body
                           empty_world))
  = [] ++ [(firstn (Z.to_nat COMPREHEND_MAX_BYTES)
                   (strip (lit "Great service!")),
            DEFAULT_LANGUAGE_CODE)].
Proof.
  assert (Ha : forallb is_ascii (strip (lit "Great service!")) = true)
    by (vm_compute; reflexivity).
  split; [apply ok_validated|]. split; [exact Ha|].
  exact (proj1 (@ascii_truncation_is_logged _
                  (env Demo.steady answers accepts) ok_body empty_world
                  ok_fields (lit "Great service!") (ok_validated _ _ _) Ha)).
Defined.

(** A reading on 2024-01-31: the 29 February 2024 lies ahead. *)
Lemma expires_at_is_a_year_of_seconds_ahead_witness :
  valid_datetime (Demo.steady 0) = true /\
  1970 <= year (Demo.steady 0) <= 2253 /\
  fst (calculate_expires_at (env Demo.steady answers accepts) empty_world)
  = inr (epoch_seconds (Demo.steady 0) + 86400 * 366).
Proof.
  assert (Hv : valid_datetime (Demo.steady 0) = true) by reflexivity.
  assert (Hy : 1970 <= year (Demo.steady 0) <= 2253)
    by (vm_compute; split; discriminate).
  split; [exact Hv|]. split; [exact Hy|].
  rewrite (@expires_at_is_a_year_of_seconds_ahead _
             (env Demo.steady answers accepts) empty_world Hv Hy).
  reflexivity.
Defined.

End MoreRuns.
